(** * Configuration manager of the test-automation suite

    Shallow embedding of [src/config/config_manager.py]: the dataclasses
    [DatabaseConfig] .. [TestConfig], the layered loader of [ConfigManager]
    (defaults, base file, environment file, environment-variable overrides,
    validation), [update_config] and [save_config].

    Python values stored in the configuration (what [json.load] /
    [yaml.safe_load] produce and what [setattr] stores) are the JSON-like
    values of [Value]; Python floats are modelled by rationals (no NaN or
    infinities). *)

From Stdlib Require Import String Ascii List ZArith QArith Bool Lia Permutation.
Import ListNotations.
Open Scope string_scope.
#[local] Set Warnings "-register-all".

(** ** Python values *)

Inductive Value : Type :=
| VNone
| VBool (b : bool)
| VInt (z : Z)
| VFloat (q : Q)
| VStr (s : string)
| VList (l : list Value)
| VDict (d : list (string * Value)).

(** Truthiness ([bool(x)]). *)
Definition truthy (v : Value) : bool :=
  match v with
  | VNone => false
  | VBool b => b
  | VInt z => negb (Z.eqb z 0)
  | VFloat q => negb (Qeq_bool q 0)
  | VStr s => negb (String.eqb s "")
  | VList l => match l with [] => false | _ => true end
  | VDict d => match d with [] => false | _ => true end
  end.

(** [dict.get]: the dicts of the model have unique keys, as Python's. *)
Fixpoint dict_get (k : string) (d : list (string * Value)) : option Value :=
  match d with
  | [] => None
  | (k', v) :: d' => if String.eqb k k' then Some v else dict_get k d'
  end.

(** [d[k] = v]: replaces the value of an existing key in place, appends
    a new key at the end (insertion order). *)
Fixpoint dict_set (k : string) (v : Value) (d : list (string * Value))
  : list (string * Value) :=
  match d with
  | [] => [(k, v)]
  | (k', v') :: d' =>
      if String.eqb k k' then (k', v) :: d' else (k', v') :: dict_set k v d'
  end.

(** [d.update(e)] for a dict [e]. *)
Definition dict_update (d e : list (string * Value)) : list (string * Value) :=
  fold_left (fun acc kv => dict_set (fst kv) (snd kv) acc) e d.

(** ** Exceptions and the state/exception monad

    A statement of [ConfigManager] mutates [self._config] and may raise;
    the mutations done before the exception stay (Python has no rollback). *)

Inductive PyErr : Type :=
| ValueError (msg : string)
| TypeError
| AttributeError
| KeyError
| OSError
| ParseError.

Inductive Exc (A : Type) : Type :=
| Ret (a : A)
| Raise (e : PyErr).
Arguments Ret {A} a.
Arguments Raise {A} e.

(** ** The dataclasses

    A dataclass instance is its attribute dict [__dict__]: field name to
    value, in declaration order.  [hasattr(obj, key)] is membership of
    [key] in it (class-level names such as methods and dunders are not
    configuration keys and are left out of the model). *)

Definition Obj : Type := list (string * Value).

Definition hasattr (o : Obj) (k : string) : bool :=
  match dict_get k o with Some _ => true | None => false end.

Definition setattr (o : Obj) (k : string) (v : Value) : Obj := dict_set k v o.

Definition DatabaseConfig_default : Obj :=
  [("type", VStr "sqlite"); ("host", VStr "localhost"); ("port", VInt 5432);
   ("database", VStr "test_db"); ("username", VStr ""); ("password", VStr "");
   ("connection_pool_size", VInt 10); ("timeout", VInt 30)].

Definition APIConfig_default : Obj :=
  [("base_url", VStr "https://httpbin.org"); ("timeout", VInt 30);
   ("max_retries", VInt 3); ("retry_delay", VFloat 1); ("verify_ssl", VBool true);
   ("headers", VDict [])].

Definition BrowserConfig_default : Obj :=
  [("headless", VBool true); ("timeout", VInt 30000);
   ("viewport_width", VInt 1920); ("viewport_height", VInt 1080);
   ("browser_type", VStr "chromium"); ("slow_mo", VInt 0);
   ("devtools", VBool false);
   ("args", VList [VStr "--no-sandbox"; VStr "--disable-dev-shm-usage";
                   VStr "--disable-gpu"; VStr "--disable-web-security"])].

Definition ReportConfig_default : Obj :=
  [("allure_results_dir", VStr "results/allure-results");
   ("html_report_path", VStr "results/report.html");
   ("screenshot_dir", VStr "screenshots"); ("video_dir", VStr "videos");
   ("generate_allure", VBool true); ("generate_html", VBool true);
   ("capture_screenshots", VBool true); ("capture_videos", VBool false)].

Definition PerformanceConfig_default : Obj :=
  [("default_concurrent_users", VInt 10); ("default_requests_per_user", VInt 10);
   ("max_response_time_ms", VFloat 5000); ("min_success_rate", VFloat 95);
   ("ramp_up_time", VInt 0); ("results_dir", VStr "performance_results")].

Record TestConfig : Type := mkTestConfig {
  environment : string;
  database : Obj;
  api : Obj;
  browser : Obj;
  report : Obj;
  performance : Obj;
  custom : list (string * Value)
}.

(** [TestConfig()] *)
Definition TestConfig_default : TestConfig :=
  {| environment := "test";
     database := DatabaseConfig_default;
     api := APIConfig_default;
     browser := BrowserConfig_default;
     report := ReportConfig_default;
     performance := PerformanceConfig_default;
     custom := [] |}.

(** The five fixed sections, in the order [_merge_config] visits them. *)
Inductive Section : Type := SDatabase | SApi | SBrowser | SReport | SPerformance.

Definition section_name (s : Section) : string :=
  match s with
  | SDatabase => "database" | SApi => "api" | SBrowser => "browser"
  | SReport => "report" | SPerformance => "performance"
  end.

Definition get_section (s : Section) (c : TestConfig) : Obj :=
  match s with
  | SDatabase => database c | SApi => api c | SBrowser => browser c
  | SReport => report c | SPerformance => performance c
  end.

Definition put_section (s : Section) (o : Obj) (c : TestConfig) : TestConfig :=
  match s with
  | SDatabase => {| environment := environment c; database := o; api := api c;
      browser := browser c; report := report c; performance := performance c;
      custom := custom c |}
  | SApi => {| environment := environment c; database := database c; api := o;
      browser := browser c; report := report c; performance := performance c;
      custom := custom c |}
  | SBrowser => {| environment := environment c; database := database c;
      api := api c; browser := o; report := report c;
      performance := performance c; custom := custom c |}
  | SReport => {| environment := environment c; database := database c;
      api := api c; browser := browser c; report := o;
      performance := performance c; custom := custom c |}
  | SPerformance => {| environment := environment c; database := database c;
      api := api c; browser := browser c; report := report c;
      performance := o; custom := custom c |}
  end.

Definition set_custom (d : list (string * Value)) (c : TestConfig) : TestConfig :=
  {| environment := environment c; database := database c; api := api c;
     browser := browser c; report := report c; performance := performance c;
     custom := d |}.

Definition set_environment (e : string) (c : TestConfig) : TestConfig :=
  {| environment := e; database := database c; api := api c;
     browser := browser c; report := report c; performance := performance c;
     custom := custom c |}.

(** ** State and exception monad over [self._config] *)

Definition M (A : Type) : Type := TestConfig -> TestConfig * Exc A.

Definition ret {A} (a : A) : M A := fun c => (c, Ret a).
Definition raise {A} (e : PyErr) : M A := fun c => (c, Raise e).
Definition bind {A B} (m : M A) (k : A -> M B) : M B :=
  fun c => match m c with
           | (c', Ret a) => k a c'
           | (c', Raise e) => (c', Raise e)
           end.
Definition get : M TestConfig := fun c => (c, Ret c).
Definition modify (f : TestConfig -> TestConfig) : M unit := fun c => (f c, Ret tt).
(** [try: m except Exception: h] *)
Definition try_except {A} (m : M A) (h : PyErr -> M A) : M A :=
  fun c => match m c with
           | (c', Ret a) => (c', Ret a)
           | (c', Raise e) => h e c'
           end.

Notation "x <- m ;; k" := (bind m (fun x => k))
  (at level 61, m at next level, right associativity).
Notation "m ;;; k" := (bind m (fun _ => k)) (at level 61, right associativity).

Fixpoint mfor {A} (l : list A) (body : A -> M unit) : M unit :=
  match l with
  | [] => ret tt
  | x :: l' => body x ;;; mfor l' body
  end.

Definition lift {A} (e : Exc A) : M A := fun c => (c, e).

(** ** String helpers of the Python runtime *)

Fixpoint is_prefix (p s : string) : bool :=
  match p, s with
  | EmptyString, _ => true
  | String a p', String b s' => Ascii.eqb a b && is_prefix p' s'
  | String _ _, EmptyString => false
  end.

(** [p in s] for strings. *)
Fixpoint is_substring (p s : string) : bool :=
  is_prefix p s ||
  match s with EmptyString => false | String _ s' => is_substring p s' end.

Definition ascii_lower (a : ascii) : ascii :=
  let n := Ascii.nat_of_ascii a in
  if (65 <=? n)%nat && (n <=? 90)%nat then Ascii.ascii_of_nat (n + 32) else a.

(** [str.lower()] (on the ASCII letters; no non-ASCII character lowercases
    to a letter of the keywords compared below). *)
Fixpoint lower (s : string) : string :=
  match s with
  | EmptyString => EmptyString
  | String a s' => String (ascii_lower a) (lower s')
  end.

(** [Path(name).suffix]: from the last dot of the name, when that dot is
    neither the first nor the last character. *)
Fixpoint last_dot_suffix (s : string) : option string :=
  match s with
  | EmptyString => None
  | String a s' =>
      match last_dot_suffix s' with
      | Some x => Some x
      | None => if Ascii.eqb a "." then Some s else None
      end
  end.

Definition suffix (name : string) : string :=
  match name with
  | EmptyString => ""
  | String _ rest =>
      match last_dot_suffix rest with
      | Some x => if String.eqb x "." then "" else x
      | None => ""
      end
  end.

(** [x == y] between a value and a string literal. *)
Definition eq_str (v : Value) (s : string) : bool :=
  match v with VStr s' => String.eqb s' s | _ => false end.

(** [key in v] for a string [key]: dict keys, list elements, substrings;
    numbers and booleans are not iterable. *)
Definition py_in (key : string) (v : Value) : Exc bool :=
  match v with
  | VDict d => Ret (match dict_get key d with Some _ => true | None => false end)
  | VList l => Ret (existsb (fun x => eq_str x key) l)
  | VStr s => Ret (is_substring key s)
  | _ => Raise TypeError
  end.

(** [v[key]] for a string [key]. *)
Definition py_getitem (v : Value) (key : string) : Exc Value :=
  match v with
  | VDict d => match dict_get key d with Some x => Ret x | None => Raise KeyError end
  | VNone => Raise TypeError
  | _ => Raise TypeError
  end.

(** [v.items()]: only dicts have it. *)
Definition py_items (v : Value) : Exc (list (string * Value)) :=
  match v with VDict d => Ret d | _ => Raise AttributeError end.

(** [obj.key] *)
Definition getattr (o : Obj) (k : string) : Exc Value :=
  match dict_get k o with Some v => Ret v | None => Raise AttributeError end.

(** ** [_merge_config] *)

(** The body of [for key, value in sec_config.items()]:
    [if hasattr(self._config.<s>, key): setattr(self._config.<s>, key, value)] *)
Definition merge_item (s : Section) (kv : string * Value) : M unit :=
  c <- get ;;
  if hasattr (get_section s c) (fst kv)
  then modify (put_section s (setattr (get_section s c) (fst kv) (snd kv)))
  else ret tt.

Definition merge_section (s : Section) (config_data : Value) : M unit :=
  b <- lift (py_in (section_name s) config_data) ;;
  if b then
    sec <- lift (py_getitem config_data (section_name s)) ;;
    items <- lift (py_items sec) ;;
    mfor items (merge_item s)
  else ret tt.

(** [self._config.custom.update(config_data['custom'])]; the argument is a
    mapping (the iterable-of-pairs form of [dict.update] is not modelled
    and raises here). *)
Definition merge_custom (config_data : Value) : M unit :=
  b <- lift (py_in "custom" config_data) ;;
  if b then
    x <- lift (py_getitem config_data "custom") ;;
    match x with
    | VDict e => modify (fun c => set_custom (dict_update (custom c) e) c)
    | _ => raise TypeError
    end
  else ret tt.

Definition merge_config (config_data : Value) : M unit :=
  if negb (truthy config_data) then ret tt
  else
    merge_section SDatabase config_data ;;;
    merge_section SApi config_data ;;;
    merge_section SBrowser config_data ;;;
    merge_section SReport config_data ;;;
    merge_section SPerformance config_data ;;;
    merge_custom config_data.

(** ** Files, environment and [_read_config_file] *)

(** A file of the config directory: [open] fails on it, or it opens and the
    parser of its format yields a value ([Some]) or an error ([None]). *)
Inductive FileContent : Type :=
| Unreadable
| Text (parsed : option Value).

(** Everything [ConfigManager()] reads from the outside world. *)
Record Sources : Type := mkSources {
  yaml_available : bool;                    (** [YAML_AVAILABLE] *)
  dotenv_available : bool;                  (** [DOTENV_AVAILABLE] *)
  config_files : list (string * FileContent); (** files of [config_dir], by name *)
  env_file : option (list (string * string)); (** [.env]: absent, or its pairs *)
  os_environ : list (string * string)        (** the process environment *)
}.

Fixpoint assoc_get {A} (k : string) (l : list (string * A)) : option A :=
  match l with
  | [] => None
  | (k', a) :: l' => if String.eqb k k' then Some a else assoc_get k l'
  end.

(** [load_dotenv(path)]: the file's values only fill variables that are
    not already set. *)
Definition load_dotenv (pairs : list (string * string)) (env : list (string * string))
  : list (string * string) :=
  fold_left (fun acc kv =>
    match assoc_get (fst kv) acc with
    | Some _ => acc
    | None => (acc ++ [kv])%list
    end) pairs env.

(** [_load_env_file] *)
Definition load_env_file (src : Sources) : list (string * string) :=
  match env_file src with
  | Some pairs => if dotenv_available src then load_dotenv pairs (os_environ src)
                  else os_environ src
  | None => os_environ src
  end.

(** [_read_config_file] *)
Definition read_config_file (yaml_ok : bool) (name : string) (fc : FileContent)
  : Exc Value :=
  match fc with
  | Unreadable => Raise OSError
  | Text parsed =>
      let sfx := lower (suffix name) in
      if String.eqb sfx ".yaml" || String.eqb sfx ".yml" then
        if negb yaml_ok then Ret (VDict [])
        else match parsed with
             | Some v => Ret (if truthy v then v else VDict [])
             | None => Raise ParseError
             end
      else if String.eqb sfx ".json" then
        match parsed with Some v => Ret v | None => Raise ParseError end
      else Raise (ValueError ("不支持的配置文件格式: " ++ suffix name))
  end.

(** The candidate loop of [_load_base_config] / [_load_environment_config]:
    the first existing candidate that reads and merges without exception
    ends the loop ([break]); an exception is logged and the next candidate
    is tried, keeping whatever the failed merge already wrote. *)
Fixpoint probe (yaml_ok : bool) (files : list (string * FileContent))
  (candidates : list string) : M unit :=
  match candidates with
  | [] => ret tt
  | name :: rest =>
      match assoc_get name files with
      | None => probe yaml_ok files rest
      | Some fc =>
          ok <- try_except
                  (data <- lift (read_config_file yaml_ok name fc) ;;
                   merge_config data ;;;
                   ret true)
                  (fun _ => ret false) ;;
          if ok : bool then ret tt else probe yaml_ok files rest
      end
  end.

Definition base_candidates : list string :=
  ["config.yaml"; "config.yml"; "config.json"].

Definition env_candidates (environment : string) : list string :=
  ["config." ++ environment ++ ".yaml"; "config." ++ environment ++ ".yml";
   "config." ++ environment ++ ".json"].

(** ** [_apply_env_overrides] *)

Definition is_space (a : ascii) : bool :=
  existsb (Ascii.eqb a) [" "; "009"; "010"; "011"; "012"; "013"]%char.

Fixpoint lstrip (s : string) : string :=
  match s with
  | String a s' => if is_space a then lstrip s' else s
  | EmptyString => EmptyString
  end.

Fixpoint rev_string (s : string) (acc : string) : string :=
  match s with
  | EmptyString => acc
  | String a s' => rev_string s' (String a acc)
  end.

Definition strip (s : string) : string :=
  rev_string (lstrip (rev_string (lstrip s) EmptyString)) EmptyString.

Definition digit_value (a : ascii) : option Z :=
  let n := Ascii.nat_of_ascii a in
  if (48 <=? n)%nat && (n <=? 57)%nat then Some (Z.of_nat n - 48)%Z else None.

(** Decimal digits where a single [_] may separate two digits. *)
Fixpoint parse_digits (s : string) (acc : Z) (after_digit : bool) : option Z :=
  match s with
  | EmptyString => if after_digit then Some acc else None
  | String a s' =>
      match digit_value a with
      | Some d => parse_digits s' (acc * 10 + d)%Z true
      | None => if Ascii.eqb a "_" && after_digit
                then parse_digits s' acc false else None
      end
  end.

(** [int(s)] on a string (base 10): surrounding whitespace, a sign, the
    digits; [None] is the [ValueError] of an invalid literal. *)
Definition py_int (s : string) : option Z :=
  match strip s with
  | String "-" r => option_map Z.opp (parse_digits r 0 false)
  | String "+" r => parse_digits r 0 false
  | r => parse_digits r 0 false
  end.

Inductive Coercion : Type := CStr | CInt | CBool.

Definition coerce (co : Coercion) (x : string) : Exc Value :=
  match co with
  | CStr => Ret (VStr x)
  | CInt => match py_int x with
            | Some z => Ret (VInt z)
            | None => Raise (ValueError ("invalid literal for int() with base 10: " ++ x))
            end
  | CBool => Ret (VBool (String.eqb (lower x) "true"))
  end.

(** The fourteen [if os.getenv(VAR): self._config.<section>.<field> = ...]
    statements, in source order. *)
Definition env_override_table : list (string * Section * string * Coercion) :=
  [("DB_TYPE", SDatabase, "type", CStr);
   ("DB_HOST", SDatabase, "host", CStr);
   ("DB_PORT", SDatabase, "port", CInt);
   ("DB_NAME", SDatabase, "database", CStr);
   ("DB_USER", SDatabase, "username", CStr);
   ("DB_PASSWORD", SDatabase, "password", CStr);
   ("API_BASE_URL", SApi, "base_url", CStr);
   ("API_TIMEOUT", SApi, "timeout", CInt);
   ("API_MAX_RETRIES", SApi, "max_retries", CInt);
   ("BROWSER_HEADLESS", SBrowser, "headless", CBool);
   ("BROWSER_TIMEOUT", SBrowser, "timeout", CInt);
   ("BROWSER_VIEWPORT_WIDTH", SBrowser, "viewport_width", CInt);
   ("BROWSER_VIEWPORT_HEIGHT", SBrowser, "viewport_height", CInt);
   ("BROWSER_TYPE", SBrowser, "browser_type", CStr)].

(** [os.getenv(var)] *)
Definition getenv (env : list (string * string)) (var : string) : option string :=
  assoc_get var env.

(** One statement: the variable must be set and non-empty (truthy). *)
Definition apply_override (env : list (string * string))
  (entry : string * Section * string * Coercion) : M unit :=
  let '(var, s, f, co) := entry in
  match getenv env var with
  | Some x =>
      if String.eqb x "" then ret tt
      else v <- lift (coerce co x) ;;
           modify (fun c => put_section s (setattr (get_section s c) f v) c)
  | None => ret tt
  end.

Definition apply_env_overrides (env : list (string * string)) : M unit :=
  mfor env_override_table (apply_override env).

(** ** [_validate_config] *)

Definition ebind {A B} (e : Exc A) (k : A -> Exc B) : Exc B :=
  match e with Ret a => k a | Raise x => Raise x end.
Notation "x <-- e ;; k" := (ebind e (fun x => k))
  (at level 61, e at next level, right associativity).

Fixpoint digits_fuel (fuel : nat) (n : Z) (acc : string) : string :=
  match fuel with
  | O => acc
  | S f =>
      let acc' := String (Ascii.ascii_of_nat (48 + Z.to_nat (n mod 10))) acc in
      if (n / 10 =? 0)%Z then acc' else digits_fuel f (n / 10) acc'
  end.

Definition z_to_string (z : Z) : string :=
  match z with
  | Z0 => "0"
  | Zpos p => digits_fuel (Pos.size_nat p) z ""
  | Zneg p => "-" ++ digits_fuel (Pos.size_nat p) (Zpos p) ""
  end.

(** [str(v)] as an f-string shows it.  The repr of floats, lists and dicts
    is not modelled: they show as a fixed placeholder. *)
Definition py_str (v : Value) : string :=
  match v with
  | VNone => "None"
  | VBool true => "True"
  | VBool false => "False"
  | VInt z => z_to_string z
  | VStr s => s
  | VFloat _ | VList _ | VDict _ => "<value>"
  end.

(** Numeric value of [v] for an ordering comparison with an int; strings,
    [None], lists and dicts raise [TypeError]. *)
Definition py_num (v : Value) : Exc Q :=
  match v with
  | VInt z => Ret (inject_Z z)
  | VBool b => Ret (if b then 1 else 0)
  | VFloat q => Ret q
  | _ => Raise TypeError
  end.

Definition py_le (v : Value) (n : Z) : Exc bool :=
  q <-- py_num v ;; Ret (Qle_bool q (inject_Z n)).
Definition py_lt (v : Value) (n : Z) : Exc bool :=
  q <-- py_num v ;; Ret (negb (Qle_bool (inject_Z n) q)).
Definition py_gt (v : Value) (n : Z) : Exc bool :=
  q <-- py_num v ;; Ret (negb (Qle_bool q (inject_Z n))).

Definition msg_db_type (v : Value) : string := "不支持的数据库类型: " ++ py_str v.
Definition msg_base_url : string := "API base_url不能为空".
Definition msg_api_timeout : string := "API timeout必须大于0".
Definition msg_browser_type (v : Value) : string := "不支持的浏览器类型: " ++ py_str v.
Definition msg_browser_timeout : string := "浏览器timeout必须大于0".
Definition msg_users : string := "并发用户数必须大于0".
Definition msg_success_rate : string := "最小成功率必须在0-100之间".

Definition error_if (b : bool) (m : string) : list string := if b then [m] else [].

(** The [errors] list that [_validate_config] accumulates, or the
    exception one of its comparisons raises. *)
Definition collect_errors (c : TestConfig) : Exc (list string) :=
  dbt <-- getattr (database c) "type" ;;
  let e1 := error_if (negb (existsb (eq_str dbt)
                        ["sqlite"; "mysql"; "postgresql"; "mongodb"]))
                     (msg_db_type dbt) in
  url <-- getattr (api c) "base_url" ;;
  let e2 := error_if (negb (truthy url)) msg_base_url in
  at_ <-- getattr (api c) "timeout" ;;
  b3 <-- py_le at_ 0 ;;
  let e3 := error_if b3 msg_api_timeout in
  bty <-- getattr (browser c) "browser_type" ;;
  let e4 := error_if (negb (existsb (eq_str bty) ["chromium"; "firefox"; "webkit"]))
                     (msg_browser_type bty) in
  bt <-- getattr (browser c) "timeout" ;;
  b5 <-- py_le bt 0 ;;
  let e5 := error_if b5 msg_browser_timeout in
  u <-- getattr (performance c) "default_concurrent_users" ;;
  b6 <-- py_le u 0 ;;
  let e6 := error_if b6 msg_users in
  r <-- getattr (performance c) "min_success_rate" ;;
  lo <-- py_lt r 0 ;;
  b7 <-- (if lo then Ret true else py_gt r 100) ;;
  let e7 := error_if b7 msg_success_rate in
  Ret (e1 ++ e2 ++ e3 ++ e4 ++ e5 ++ e6 ++ e7)%list.

Fixpoint prefix_each (sep : string) (l : list string) : string :=
  match l with
  | [] => ""
  | x :: l' => sep ++ x ++ prefix_each sep l'
  end.

(** [sep.join(l)] *)
Definition join (sep : string) (l : list string) : string :=
  match l with
  | [] => ""
  | x :: l' => x ++ prefix_each sep l'
  end.

(** [error_msg = "配置验证失败:\n" + "\n".join(f"- {error}" for error in errors)] *)
Definition validation_message (errors : list string) : string :=
  "配置验证失败:" ++ String "010" EmptyString
  ++ join (String "010" EmptyString) (map (fun e => "- " ++ e) errors).

Definition validate_config : M unit :=
  c <- get ;;
  errors <- lift (collect_errors c) ;;
  match errors with
  | [] => ret tt
  | _ => raise (ValueError (validation_message errors))
  end.

(** ** [ConfigManager.__init__] *)

(** [_load_config] *)
Definition load_config (yaml_ok : bool) (files : list (string * FileContent))
  (env : list (string * string)) (environment : string) : M unit :=
  probe yaml_ok files base_candidates ;;;
  probe yaml_ok files (env_candidates environment) ;;;
  apply_env_overrides env ;;;
  validate_config.

Record ConfigManager : Type := mkConfigManager {
  cm_environment : string;   (** [self.environment] *)
  cm_config : TestConfig     (** [self._config] *)
}.

(** [self.environment = os.getenv('TEST_ENV', 'test')], after [_load_env_file] *)
Definition active_environment (src : Sources) : string :=
  match getenv (load_env_file src) "TEST_ENV" with Some e => e | None => "test" end.

(** [ConfigManager()]: the manager, or the exception its constructor
    raises. *)
Definition ConfigManager_init (src : Sources) : Exc ConfigManager :=
  let env := load_env_file src in
  let environment := active_environment src in
  let c0 := set_environment environment TestConfig_default in
  match load_config (yaml_available src) (config_files src) env environment c0 with
  | (c, Ret _) => Ret {| cm_environment := environment; cm_config := c |}
  | (_, Raise e) => Raise e
  end.

(** ** [update_config] *)

Definition update_config (section key : string) (value : Value) : M unit :=
  c <- get ;;
  if String.eqb section "database" && hasattr (database c) key then
    modify (put_section SDatabase (setattr (database c) key value))
  else if String.eqb section "api" && hasattr (api c) key then
    modify (put_section SApi (setattr (api c) key value))
  else if String.eqb section "browser" && hasattr (browser c) key then
    modify (put_section SBrowser (setattr (browser c) key value))
  else if String.eqb section "report" && hasattr (report c) key then
    modify (put_section SReport (setattr (report c) key value))
  else if String.eqb section "performance" && hasattr (performance c) key then
    modify (put_section SPerformance (setattr (performance c) key value))
  else if String.eqb section "custom" then
    modify (set_custom (dict_set key value (custom c)))
  else raise (ValueError ("未知的配置节或键: " ++ section ++ "." ++ key)).

(** ** [save_config] *)

(** The fields [save_config] writes for each section, in its order.  The
    database password is not among them. *)
Definition saved_database_fields : list string :=
  ["type"; "host"; "port"; "database"; "username"; "connection_pool_size"; "timeout"].
Definition saved_api_fields : list string :=
  ["base_url"; "timeout"; "max_retries"; "retry_delay"; "verify_ssl"; "headers"].
Definition saved_browser_fields : list string :=
  ["headless"; "timeout"; "viewport_width"; "viewport_height"; "browser_type";
   "slow_mo"; "devtools"; "args"].
Definition saved_report_fields : list string :=
  ["allure_results_dir"; "html_report_path"; "screenshot_dir"; "video_dir";
   "generate_allure"; "generate_html"; "capture_screenshots"; "capture_videos"].
Definition saved_performance_fields : list string :=
  ["default_concurrent_users"; "default_requests_per_user"; "max_response_time_ms";
   "min_success_rate"; "ramp_up_time"; "results_dir"].

(** [{'f1': obj.f1, 'f2': obj.f2, ...}] *)
Fixpoint read_fields (o : Obj) (fields : list string) : Exc (list (string * Value)) :=
  match fields with
  | [] => Ret []
  | f :: fs => v <-- getattr o f ;; rest <-- read_fields o fs ;; Ret ((f, v) :: rest)
  end.

(** The [config_data] dict of [save_config]. *)
Definition save_data (c : TestConfig) : Exc Value :=
  db <-- read_fields (database c) saved_database_fields ;;
  ap <-- read_fields (api c) saved_api_fields ;;
  br <-- read_fields (browser c) saved_browser_fields ;;
  rp <-- read_fields (report c) saved_report_fields ;;
  pf <-- read_fields (performance c) saved_performance_fields ;;
  Ret (VDict [("database", VDict db); ("api", VDict ap); ("browser", VDict br);
              ("report", VDict rp); ("performance", VDict pf);
              ("custom", VDict (custom c))]).

(** Insertion of a dict item by key (code-point order of the keys, which
    is the byte order of their UTF-8 encoding). *)
Fixpoint insert_item (kv : string * Value) (d : list (string * Value))
  : list (string * Value) :=
  match d with
  | [] => [kv]
  | kv' :: d' => if String.leb (fst kv) (fst kv') then kv :: kv' :: d'
                 else kv' :: insert_item kv d'
  end.

Definition sort_items (d : list (string * Value)) : list (string * Value) :=
  fold_right insert_item [] d.

(** The value [yaml.safe_load] reads back from [yaml.dump(v)]: the same
    value with the keys of every dict in sorted order ([sort_keys=True]
    is [yaml.dump]'s default).  [json.load] after [json.dump] gives the
    value back as it was. *)
Fixpoint yaml_dump_load (v : Value) : Value :=
  match v with
  | VList l => VList (map yaml_dump_load l)
  | VDict d =>
      VDict (sort_items ((fix items (d : list (string * Value)) :=
                            match d with
                            | [] => []
                            | (k, x) :: d' => (k, yaml_dump_load x) :: items d'
                            end) d))
  | _ => v
  end.

(** [config_file.with_suffix('.json')] *)
Definition with_json_suffix (name : string) : string :=
  let sfx := suffix name in
  String.substring 0 (String.length name - String.length sfx) name ++ ".json".

(** [save_config(config_file)]: the file written, by name, with the value
    the matching parser reads back from it. *)
Definition save_config (yaml_ok : bool) (cm : ConfigManager)
  (config_file : option string) : Exc (string * FileContent) :=
  let file := match config_file with
              | Some f => f
              | None => "config." ++ cm_environment cm ++ ".yaml"
              end in
  data <-- save_data (cm_config cm) ;;
  let sfx := lower (suffix file) in
  if (String.eqb sfx ".yaml" || String.eqb sfx ".yml") && yaml_ok
  then Ret (file, Text (Some (yaml_dump_load data)))
  else Ret (with_json_suffix file, Text (Some data)).

(** ** Well-formed configurations

    Every [TestConfig] the manager holds has, in each fixed section, the
    fields of its dataclass in declaration order, and a custom dict with
    distinct keys. *)

Definition keys {A} (d : list (string * A)) : list string := map fst d.

Definition wf_config (c : TestConfig) : Prop :=
  keys (database c) = keys DatabaseConfig_default /\
  keys (api c) = keys APIConfig_default /\
  keys (browser c) = keys BrowserConfig_default /\
  keys (report c) = keys ReportConfig_default /\
  keys (performance c) = keys PerformanceConfig_default /\
  NoDup (keys (custom c)).

Definition section_eq_dec (s s' : Section) : {s = s'} + {s <> s'}.
Proof. decide equality. Defined.


(** ** The six hard invariants, as the data model of the specification
    words them (compared with [collect_errors] below). *)





(** ** State invariants of the loader *)

Definition preserves (P : TestConfig -> Prop) {A} (m : M A) : Prop :=
  forall c, P c -> P (fst (m c)).

(** ** Merging a section dict *)

(** The section after the [for] loop of [_merge_config] over [d]. *)
Definition merge_items (o : Obj) (d : list (string * Value)) : Obj :=
  fold_left (fun o kv => if hasattr o (fst kv) then setattr o (fst kv) (snd kv) else o) d o.

(** ** Merging a whole file *)

Definition msec (s : Section) (d : list (string * Value)) (c : TestConfig) : TestConfig :=
  match dict_get (section_name s) d with
  | Some (VDict sd) => put_section s (merge_items (get_section s c) sd) c
  | _ => c
  end.

Definition mcustom (d : list (string * Value)) (c : TestConfig) : TestConfig :=
  match dict_get "custom" d with
  | Some (VDict e) => set_custom (dict_update (custom c) e) c
  | _ => c
  end.

(** The configuration after [_merge_config] of a dict none of whose known
    sections raises. *)
Definition merge_pure (d : list (string * Value)) (c : TestConfig) : TestConfig :=
  mcustom d (msec SPerformance d (msec SReport d (msec SBrowser d
    (msec SApi d (msec SDatabase d c))))).

(** Every known section of the file is a dict: [_merge_config] does not
    raise on it. *)
Definition section_ok (d : list (string * Value)) (name : string) : bool :=
  match dict_get name d with
  | None => true
  | Some (VDict _) => true
  | Some _ => false
  end.

Definition mergeable (d : list (string * Value)) : bool :=
  forallb (section_ok d) ["database"; "api"; "browser"; "report"; "performance"; "custom"].


(** The first candidate present in the directory. *)
Fixpoint first_existing (files : list (string * FileContent)) (cands : list string)
  : option (string * FileContent) :=
  match cands with
  | [] => None
  | n :: rest => match assoc_get n files with
                 | Some fc => Some (n, fc)
                 | None => first_existing files rest
                 end
  end.




(** The three-layer example of the precedence rule. *)
Definition timeout_file (n : Z) : FileContent :=
  Text (Some (VDict [("api", VDict [("timeout", VInt n)])])).

Definition layered_sources (files : list (string * FileContent))
  (environ : list (string * string)) : Sources :=
  {| yaml_available := true; dotenv_available := true; config_files := files;
     env_file := None; os_environ := environ |}.

Definition api_timeout_of (r : Exc ConfigManager) : option Value :=
  match r with
  | Ret cm => dict_get "timeout" (api (cm_config cm))
  | Raise _ => None
  end.


(** ** A YAML candidate when PyYAML is missing *)

Definition no_yaml_sources (files : list (string * FileContent)) : Sources :=
  {| yaml_available := false; dotenv_available := true; config_files := files;
     env_file := None; os_environ := [] |}.

(** ** Saving and loading back *)

(** [yaml_dump_load] on the items of a dict, before sorting. *)
Definition ydl_items (d : list (string * Value)) : list (string * Value) :=
  map (fun kv => (fst kv, yaml_dump_load (snd kv))) d.

(** The keys of consecutive items are in order. *)
Fixpoint sorted_items (d : list (string * Value)) : bool :=
  match d with
  | [] => true
  | kv :: d' => match d' with
                | [] => true
                | kv' :: _ => String.leb (fst kv) (fst kv') && sorted_items d'
                end
  end.

(** Equal as Python values: the same structure, the items of dicts compared
    regardless of their order.  (Python's [==] is coarser still: it also
    equates [1], [1.0] and [True].) *)
Definition same_value (v w : Value) : Prop := yaml_dump_load v = yaml_dump_load w.

(** The value read back from a saved file: [yaml.dump] then
    [yaml.safe_load] for a YAML file, [json.dump] then [json.load] for a
    JSON file. *)
Definition reload (yaml : bool) (v : Value) : Value :=
  if yaml then yaml_dump_load v else v.

Definition reload_items (yaml : bool) (d : list (string * Value)) : list (string * Value) :=
  if yaml then sort_items (ydl_items d) else d.

(** The fields [save_config] writes for section [s]. *)
Definition saved_fields (s : Section) : list string :=
  match s with
  | SDatabase => saved_database_fields
  | SApi => saved_api_fields
  | SBrowser => saved_browser_fields
  | SReport => saved_report_fields
  | SPerformance => saved_performance_fields
  end.

(** [{'f1': obj.f1, ...}] when every field exists. *)
Definition pick (o : Obj) (fields : list string) : list (string * Value) :=
  map (fun f => (f, match dict_get f o with Some v => v | None => VNone end)) fields.

(** The [config_data] dict of [save_config] for a well-formed
    configuration. *)
Definition saved_tree (c : TestConfig) : list (string * Value) :=
  [("database", VDict (pick (database c) saved_database_fields));
   ("api", VDict (pick (api c) saved_api_fields));
   ("browser", VDict (pick (browser c) saved_browser_fields));
   ("report", VDict (pick (report c) saved_report_fields));
   ("performance", VDict (pick (performance c) saved_performance_fields));
   ("custom", VDict (custom c))].

(** A configuration with a database password, and the file [save_config]
    writes for it. *)
Definition secret_config : TestConfig :=
  put_section SDatabase (setattr DatabaseConfig_default "password" (VStr "s3cret"))
    TestConfig_default.

Definition secret_manager : ConfigManager :=
  {| cm_environment := "test"; cm_config := secret_config |}.

Definition saved_file (yaml_ok : bool) (cm : ConfigManager) (file : option string)
  : FileContent :=
  match save_config yaml_ok cm file with
  | Ret (_, fc) => fc
  | Raise _ => Unreadable
  end.

(** ** Reading the configuration *)

(** [get_custom_config(key, default)]: [self._config.custom.get(key, default)]. *)
Definition get_custom_config (c : TestConfig) (key : string) (default : Value) : Value :=
  match dict_get key (custom c) with Some v => v | None => default end.

(** ** The module-level instance

    [_config_manager] is the state of the module: [None] until the first
    call of [get_config_manager()] constructs it. *)



(** A process environment and a [.env] file that both set [A]. *)
Definition dotenv_example : Sources :=
  {| yaml_available := true; dotenv_available := true; config_files := [];
     env_file := Some [("A", "2"); ("B", "3")]; os_environ := [("A", "1")] |}.




(** ** Generic lemmas: dicts, sections, the monad *)

Lemma dict_get_set_same (k : string) (v : Value) (o : list (string * Value)) :
  dict_get k (dict_set k v o) = Some v.
Proof.
  induction o as [|[k' v'] o IH]; simpl.
  - now rewrite String.eqb_refl.
  - destruct (String.eqb k k') eqn:E; simpl.
    + now rewrite E.
    + now rewrite E.
Qed.

Lemma dict_get_set_other (k f : string) (v : Value) (o : list (string * Value)) :
  k <> f -> dict_get f (dict_set k v o) = dict_get f o.
Proof.
  intros Hne. induction o as [|[k' v'] o IH]; simpl.
  - destruct (String.eqb f k) eqn:E; [apply String.eqb_eq in E; congruence | reflexivity].
  - destruct (String.eqb k k') eqn:E; simpl.
    + apply String.eqb_eq in E; subst k'.
      destruct (String.eqb f k) eqn:E2; [apply String.eqb_eq in E2; congruence | reflexivity].
    + now rewrite IH.
Qed.

Lemma dict_get_in (k : string) (o : list (string * Value)) :
  In k (keys o) <-> exists v, dict_get k o = Some v.
Proof.
  induction o as [|[k' v'] o IH]; simpl.
  - split; [tauto | intros [v H]; discriminate].
  - destruct (String.eqb k k') eqn:E.
    + apply String.eqb_eq in E; subst. split; eauto.
    + apply String.eqb_neq in E. rewrite <- IH. split; [intros [H|H]; congruence | auto].
Qed.

Lemma hasattr_in (o : Obj) (k : string) : hasattr o k = true <-> In k (keys o).
Proof.
  unfold hasattr. rewrite dict_get_in.
  destruct (dict_get k o); split; intros H; eauto; try discriminate.
  destruct H; discriminate.
Qed.

Lemma keys_dict_set (k : string) (v : Value) (o : list (string * Value)) :
  In k (keys o) -> keys (dict_set k v o) = keys o.
Proof.
  induction o as [|[k' v'] o IH]; simpl; [tauto|].
  intros H. destruct (String.eqb k k') eqn:E; simpl; [reflexivity|].
  apply String.eqb_neq in E. f_equal. apply IH. destruct H; congruence.
Qed.

Lemma in_keys_dict_set (k f : string) (v : Value) (o : list (string * Value)) :
  In f (keys o) -> In f (keys (dict_set k v o)).
Proof.
  intros H. apply dict_get_in in H as [w H]. apply dict_get_in.
  destruct (String.eqb k f) eqn:E.
  - apply String.eqb_eq in E; subst. rewrite dict_get_set_same; eauto.
  - apply String.eqb_neq in E. rewrite dict_get_set_other; eauto.
Qed.

Lemma get_put_same (s : Section) (o : Obj) (c : TestConfig) :
  get_section s (put_section s o c) = o.
Proof. destruct s; reflexivity. Qed.

Lemma get_put_other (s s' : Section) (o : Obj) (c : TestConfig) :
  s <> s' -> get_section s (put_section s' o c) = get_section s c.
Proof. destruct s, s'; simpl; congruence. Qed.

Lemma custom_put (s : Section) (o : Obj) (c : TestConfig) :
  custom (put_section s o c) = custom c.
Proof. destruct s; reflexivity. Qed.

Lemma environment_put (s : Section) (o : Obj) (c : TestConfig) :
  environment (put_section s o c) = environment c.
Proof. destruct s; reflexivity. Qed.

(** An invariant of the state kept by every iteration of a [for] loop
    holds after the loop, also when an iteration raises. *)
Lemma mfor_inv {A} (P : TestConfig -> Prop) (l : list A) (body : A -> M unit) :
  (forall x c, In x l -> P c -> P (fst (body x c))) ->
  forall c, P c -> P (fst (mfor l body c)).
Proof.
  induction l as [|x l IH]; intros Hb c Hc; simpl; [exact Hc|].
  unfold bind. pose proof (Hb x c (or_introl eq_refl) Hc) as Hx.
  destruct (body x c) as [c' [a|e]]; simpl in *; [|exact Hx].
  apply IH; [intros; apply Hb; auto | exact Hx].
Qed.

(** ** Environment-variable overrides *)

Lemma apply_override_other (env : list (string * string))
  (var : string) (s' : Section) (f' : string) (co : Coercion)
  (s : Section) (f : string) (c : TestConfig) :
  s' <> s \/ f' <> f ->
  dict_get f (get_section s (fst (apply_override env (var, s', f', co) c)))
  = dict_get f (get_section s c).
Proof.
  intros Hne. simpl. destruct (getenv env var) as [x|]; [|reflexivity].
  destruct (String.eqb x ""); [reflexivity|].
  unfold bind, lift. destruct (coerce co x) as [v|e]; simpl; [|reflexivity].
  destruct (section_eq_dec s s') as [->|Hs].
  - rewrite get_put_same. apply dict_get_set_other. intros ->. intuition.
  - now rewrite get_put_other.
Qed.

(** Each variable of the table has its own field. *)
Lemma env_override_table_fields_unique :
  forall var s f co var' s' f' co',
  In (var, s, f, co) env_override_table ->
  In (var', s', f', co') env_override_table ->
  s' = s -> f' = f -> var' = var /\ co' = co.
Proof.
  intros var s f co var' s' f' co' H H' Hs Hf. subst s' f'.
  simpl in H, H';
  repeat (destruct H as [H|H]; [injection H as <- <- <- <-|]); try contradiction;
  repeat (destruct H' as [H'|H']; [inversion H'; subst; auto; fail|]); contradiction.
Qed.

(** C10: a recognised override variable set to the empty string is
    treated as unset: its own statement changes nothing, and the field it
    targets keeps the value the earlier layers produced through the whole
    of [_apply_env_overrides]. *)
Theorem empty_env_var_is_unset (env : list (string * string)) (var : string)
  (s : Section) (f : string) (co : Coercion) (c : TestConfig) :
  In (var, s, f, co) env_override_table ->
  getenv env var = Some "" ->
  apply_override env (var, s, f, co) c = (c, Ret tt) /\
  dict_get f (get_section s (fst (apply_env_overrides env c)))
  = dict_get f (get_section s c).
Proof.
  intros Hin Hempty. split.
  - simpl. now rewrite Hempty.
  - apply (mfor_inv (fun c' => dict_get f (get_section s c') = dict_get f (get_section s c)));
      [|reflexivity].
    intros [[[var' s'] f'] co'] c' Hin' Hc'. rewrite <- Hc'.
    destruct (section_eq_dec s' s) as [Hs|Hs];
      [destruct (String.eqb f' f) eqn:Hf|].
    + apply String.eqb_eq in Hf.
      destruct (env_override_table_fields_unique _ _ _ _ _ _ _ _ Hin Hin' Hs Hf)
        as [-> ->]. subst s' f'. simpl. now rewrite Hempty.
    + apply apply_override_other. right. now apply String.eqb_neq.
    + apply apply_override_other. now left.
Qed.

Lemma empty_env_var_is_unset_witness :
  In ("DB_PASSWORD", SDatabase, "password", CStr) env_override_table /\
  getenv [("DB_PASSWORD", "")] "DB_PASSWORD" = Some "" /\
  (apply_override [("DB_PASSWORD", "")] ("DB_PASSWORD", SDatabase, "password", CStr)
     TestConfig_default = (TestConfig_default, Ret tt) /\
   dict_get "password"
     (get_section SDatabase (fst (apply_env_overrides [("DB_PASSWORD", "")] TestConfig_default)))
   = dict_get "password" (get_section SDatabase TestConfig_default)).
Proof.
  split; [simpl; tauto|]. split; [reflexivity|].
  apply empty_env_var_is_unset; [simpl; tauto | reflexivity].
Defined.

(** ** [update_config] *)

Lemma update_config_known_field (s : Section) (key : string) (value : Value)
  (c : TestConfig) :
  hasattr (get_section s c) key = true ->
  update_config (section_name s) key value c
  = (put_section s (setattr (get_section s c) key value) c, Ret tt).
Proof.
  intros H. destruct s; cbn [get_section] in H; unfold update_config, bind, get;
    cbn -[hasattr setattr]; rewrite H; reflexivity.
Qed.

(** C8: [update_config] on a known field of a fixed section assigns the
    value and returns normally, without validating it: in particular
    [update_config("database", "type", "oracle")] succeeds and leaves
    [database.type = "oracle"], a value [_validate_config] rejects. *)
Theorem update_config_does_not_validate (s : Section) (key : string)
  (value : Value) (c : TestConfig) :
  hasattr (get_section s c) key = true ->
  exists c', update_config (section_name s) key value c = (c', Ret tt) /\
             dict_get key (get_section s c') = Some value /\
             (forall s', s' <> s -> get_section s' c' = get_section s' c) /\
             (hasattr (database c) "type" = true ->
              exists c'', update_config "database" "type" (VStr "oracle") c = (c'', Ret tt) /\
                          dict_get "type" (database c'') = Some (VStr "oracle") /\
                          existsb (eq_str (VStr "oracle"))
                            ["sqlite"; "mysql"; "postgresql"; "mongodb"] = false).
Proof.
  intros H. eexists. split; [now apply update_config_known_field|].
  split; [now rewrite get_put_same; apply dict_get_set_same|].
  split; [intros s' Hs'; now apply get_put_other|].
  intros Hdb. eexists. split.
  - exact (update_config_known_field SDatabase "type" (VStr "oracle") c Hdb).
  - split; [apply dict_get_set_same | reflexivity].
Qed.

Lemma update_config_does_not_validate_witness :
  hasattr (get_section SApi TestConfig_default) "timeout" = true /\
  exists c', update_config (section_name SApi) "timeout" (VInt (-5)) TestConfig_default
             = (c', Ret tt) /\
           dict_get "timeout" (get_section SApi c') = Some (VInt (-5)) /\
           (forall s', s' <> SApi -> get_section s' c' = get_section s' TestConfig_default) /\
           (hasattr (database TestConfig_default) "type" = true ->
            exists c'', update_config "database" "type" (VStr "oracle") TestConfig_default
                        = (c'', Ret tt) /\
                        dict_get "type" (database c'') = Some (VStr "oracle") /\
                        existsb (eq_str (VStr "oracle"))
                          ["sqlite"; "mysql"; "postgresql"; "mongodb"] = false).
Proof.
  split; [reflexivity|]. apply update_config_does_not_validate. reflexivity.
Defined.

Lemma wf_default_config : wf_config TestConfig_default.
Proof. repeat split; constructor. Qed.

Lemma wf_hasattr_database (c : TestConfig) (k : string) :
  wf_config c -> hasattr (database c) k = hasattr DatabaseConfig_default k.
Proof.
  intros [Hd _]. destruct (hasattr DatabaseConfig_default k) eqn:E.
  - apply hasattr_in. rewrite Hd. now apply hasattr_in.
  - destruct (hasattr (database c) k) eqn:E2; [|reflexivity].
    apply hasattr_in in E2. rewrite Hd in E2. apply hasattr_in in E2. congruence.
Qed.

(** C5: [update_config("database", "nonexistent_field", 5)] raises the
    unknown-section-or-key [ValueError] and leaves the configuration as it
    was; [update_config("custom", k, v)] succeeds for every key and value,
    whether [k] was in the custom dict before or not. *)
Theorem update_config_rejects_unknown_key (c : TestConfig) :
  wf_config c ->
  update_config "database" "nonexistent_field" (VInt 5) c
  = (c, Raise (ValueError "未知的配置节或键: database.nonexistent_field")) /\
  (forall (k : string) (v : Value),
     exists c', update_config "custom" k v c = (c', Ret tt) /\
                custom c' = dict_set k v (custom c) /\
                dict_get k (custom c') = Some v /\
                forall s, get_section s c' = get_section s c).
Proof.
  intros Hwf. split.
  - unfold update_config, bind, get. cbn -[hasattr].
    rewrite (wf_hasattr_database c "nonexistent_field" Hwf). reflexivity.
  - intros k v. eexists. split; [reflexivity|].
    split; [reflexivity|]. split; [apply dict_get_set_same|].
    intros []; reflexivity.
Qed.

Lemma update_config_rejects_unknown_key_witness :
  wf_config TestConfig_default /\
  (update_config "database" "nonexistent_field" (VInt 5) TestConfig_default
   = (TestConfig_default,
      Raise (ValueError "未知的配置节或键: database.nonexistent_field")) /\
   (forall (k : string) (v : Value),
      exists c', update_config "custom" k v TestConfig_default = (c', Ret tt) /\
                 custom c' = dict_set k v (custom TestConfig_default) /\
                 dict_get k (custom c') = Some v /\
                 forall s, get_section s c' = get_section s TestConfig_default)).
Proof.
  split; [exact wf_default_config|].
  apply update_config_rejects_unknown_key. exact wf_default_config.
Defined.

(** ** Validation *)


















Lemma preserves_ret P {A} (a : A) : preserves P (ret a).
Proof. intros c H. exact H. Qed.


Lemma preserves_lift P {A} (e : Exc A) : preserves P (lift e).
Proof. intros c H. exact H. Qed.

Lemma preserves_bind P {A B} (m : M A) (k : A -> M B) :
  preserves P m -> (forall a, preserves P (k a)) -> preserves P (bind m k).
Proof.
  intros Hm Hk c Hc. unfold bind. specialize (Hm c Hc).
  destruct (m c) as [c' [a|e]]; simpl in *; [now apply Hk | exact Hm].
Qed.


Lemma preserves_modify P (f : TestConfig -> TestConfig) :
  (forall c, P c -> P (f c)) -> preserves P (modify f).
Proof. intros Hf c Hc. now apply Hf. Qed.


Lemma preserves_mfor P {A} (l : list A) (body : A -> M unit) :
  (forall x, In x l -> preserves P (body x)) -> preserves P (mfor l body).
Proof.
  intros Hb c Hc. apply (mfor_inv P); [|exact Hc].
  intros x c' Hx Hc'. now apply Hb.
Qed.







Lemma put_put (s : Section) (o o' : Obj) (c : TestConfig) :
  put_section s o (put_section s o' c) = put_section s o c.
Proof. destruct s; reflexivity. Qed.

Lemma put_get (s : Section) (c : TestConfig) : put_section s (get_section s c) c = c.
Proof. destruct c, s; reflexivity. Qed.

Lemma merge_items_loop (s : Section) (d : list (string * Value)) (c : TestConfig) :
  mfor d (merge_item s) c = (put_section s (merge_items (get_section s c) d) c, Ret tt).
Proof.
  revert c. induction d as [|[k v] d IH]; intros c; simpl.
  - now rewrite put_get.
  - unfold bind at 1. unfold merge_item, bind, get, modify, ret. simpl.
    destruct (hasattr (get_section s c) k).
    + rewrite IH, get_put_same, put_put. reflexivity.
    + apply IH.
Qed.

Lemma hasattr_setattr (o : Obj) (k f : string) (v : Value) :
  hasattr o k = true -> hasattr (setattr o k v) f = hasattr o f.
Proof.
  intros Hk. apply hasattr_in in Hk. unfold setattr.
  destruct (hasattr o f) eqn:E.
  - apply hasattr_in. rewrite keys_dict_set by exact Hk. now apply hasattr_in.
  - destruct (hasattr (dict_set k v o) f) eqn:E2; [|reflexivity].
    apply hasattr_in in E2. rewrite keys_dict_set in E2 by exact Hk.
    apply hasattr_in in E2. congruence.
Qed.


Lemma not_in_keys_get (f : string) (d : list (string * Value)) :
  ~ In f (keys d) -> dict_get f d = None.
Proof.
  intros H. destruct (dict_get f d) eqn:E; [|reflexivity].
  exfalso. apply H. apply dict_get_in. eauto.
Qed.

(** Pointwise effect of the loop: a key of the section takes the dict's
    value, a key the dict lacks keeps its value, unknown keys are
    skipped. *)
Lemma dict_get_merge_items (o : Obj) (d : list (string * Value)) (f : string) :
  NoDup (keys d) ->
  dict_get f (merge_items o d)
  = if hasattr o f then match dict_get f d with
                        | Some v => Some v
                        | None => dict_get f o
                        end
    else dict_get f o.
Proof.
  unfold merge_items. revert o. induction d as [|[k v] d IH]; intros o Hnd; simpl.
  - destruct (hasattr o f); reflexivity.
  - inversion Hnd as [|? ? Hnin Hnd']; subst.
    rewrite IH by exact Hnd'.
    destruct (hasattr o k) eqn:Hk.
    + rewrite (hasattr_setattr o k f v Hk). unfold setattr.
      destruct (String.eqb f k) eqn:E.
      * apply String.eqb_eq in E; subst f. rewrite Hk.
        rewrite (not_in_keys_get k d Hnin). apply dict_get_set_same.
      * apply String.eqb_neq in E. rewrite dict_get_set_other by congruence.
        reflexivity.
    + destruct (String.eqb f k) eqn:E; [|reflexivity].
      apply String.eqb_eq in E; subst f. rewrite Hk. reflexivity.
Qed.

Lemma merge_section_vdict (s : Section) (d : list (string * Value)) (c : TestConfig) :
  section_ok d (section_name s) = true ->
  merge_section s (VDict d) c = (msec s d c, Ret tt).
Proof.
  unfold section_ok, merge_section, msec, bind, lift. simpl.
  destruct (dict_get (section_name s) d) as [v|]; [|reflexivity].
  destruct v; try discriminate. intros _. simpl. apply merge_items_loop.
Qed.

Lemma merge_custom_vdict (d : list (string * Value)) (c : TestConfig) :
  section_ok d "custom" = true ->
  merge_custom (VDict d) c = (mcustom d c, Ret tt).
Proof.
  unfold section_ok, merge_custom, mcustom, bind, lift. simpl.
  destruct (dict_get "custom" d) as [v|]; [|reflexivity].
  destruct v; try discriminate. reflexivity.
Qed.

Lemma merge_config_mergeable (d : list (string * Value)) (c : TestConfig) :
  mergeable d = true ->
  merge_config (VDict d) c = (merge_pure d c, Ret tt).
Proof.
  intros H. unfold mergeable in H. simpl in H.
  apply andb_prop in H as [H1 H]. apply andb_prop in H as [H2 H].
  apply andb_prop in H as [H3 H]. apply andb_prop in H as [H4 H].
  apply andb_prop in H as [H5 H]. apply andb_prop in H as [H6 _].
  destruct d as [|kv d'].
  - reflexivity.
  - unfold merge_config. change (negb (truthy (VDict (kv :: d')))) with false.
    cbv beta iota. set (d := kv :: d') in *. unfold bind at 1.
    rewrite (merge_section_vdict SDatabase d c H1). unfold bind at 1.
    rewrite (merge_section_vdict SApi d _ H2). unfold bind at 1.
    rewrite (merge_section_vdict SBrowser d _ H3). unfold bind at 1.
    rewrite (merge_section_vdict SReport d _ H4). unfold bind at 1.
    rewrite (merge_section_vdict SPerformance d _ H5).
    rewrite (merge_custom_vdict d _ H6). reflexivity.
Qed.

Lemma get_msec (s s' : Section) (d : list (string * Value)) (c : TestConfig) :
  get_section s (msec s' d c)
  = if section_eq_dec s s' then
      match dict_get (section_name s) d with
      | Some (VDict sd) => merge_items (get_section s c) sd
      | _ => get_section s c
      end
    else get_section s c.
Proof.
  unfold msec. destruct (section_eq_dec s s') as [<-|Hne].
  - destruct (dict_get (section_name s) d) as [[]|]; try reflexivity. apply get_put_same.
  - destruct (dict_get (section_name s') d) as [[]|]; try reflexivity.
    now apply get_put_other.
Qed.

Lemma get_mcustom (s : Section) (d : list (string * Value)) (c : TestConfig) :
  get_section s (mcustom d c) = get_section s c.
Proof. unfold mcustom. destruct (dict_get "custom" d) as [[]|]; destruct s; reflexivity. Qed.

Lemma get_merge_pure (s : Section) (d : list (string * Value)) (c : TestConfig) :
  get_section s (merge_pure d c)
  = match dict_get (section_name s) d with
    | Some (VDict sd) => merge_items (get_section s c) sd
    | _ => get_section s c
    end.
Proof.
  unfold merge_pure. rewrite get_mcustom, !get_msec.
  destruct s; simpl; destruct (dict_get _ d) as [[]|]; reflexivity.
Qed.

Lemma custom_msec (s : Section) (d : list (string * Value)) (c : TestConfig) :
  custom (msec s d c) = custom c.
Proof. unfold msec. destruct (dict_get (section_name s) d) as [[]|]; try reflexivity. apply custom_put. Qed.

Lemma custom_merge_pure (d : list (string * Value)) (c : TestConfig) :
  custom (merge_pure d c)
  = match dict_get "custom" d with
    | Some (VDict e) => dict_update (custom c) e
    | _ => custom c
    end.
Proof.
  unfold merge_pure, mcustom.
  destruct (dict_get "custom" d) as [[]|]; simpl; rewrite ?custom_msec; reflexivity.
Qed.

(** ** The candidate loop *)


Lemma probe_none (yaml_ok : bool) (files : list (string * FileContent))
  (cands : list string) (c : TestConfig) :
  first_existing files cands = None -> probe yaml_ok files cands c = (c, Ret tt).
Proof.
  induction cands as [|n cands IH]; simpl; [reflexivity|].
  destruct (assoc_get n files); [discriminate | exact IH].
Qed.

Lemma probe_first (yaml_ok : bool) (files : list (string * FileContent))
  (cands : list string) (n : string) (fc : FileContent) (data : Value)
  (c c' : TestConfig) :
  first_existing files cands = Some (n, fc) ->
  read_config_file yaml_ok n fc = Ret data ->
  merge_config data c = (c', Ret tt) ->
  probe yaml_ok files cands c = (c', Ret tt).
Proof.
  induction cands as [|m cands IH]; simpl; [discriminate|].
  destruct (assoc_get m files) as [fc'|] eqn:E; [|exact IH].
  intros Hf. injection Hf as <- <-. intros Hr Hm.
  unfold bind at 1, try_except. unfold bind at 1, lift. rewrite Hr.
  unfold bind. rewrite Hm. reflexivity.
Qed.

(** ** Every loaded configuration is well formed *)

Lemma wf_keys (s : Section) (c : TestConfig) :
  wf_config c -> keys (get_section s c) = keys (get_section s TestConfig_default).
Proof. intros (H1 & H2 & H3 & H4 & H5 & H6). destruct s; assumption. Qed.








Lemma validate_config_state (c : TestConfig) : fst (validate_config c) = c.
Proof.
  unfold validate_config, bind, get, lift.
  destruct (collect_errors c) as [errs|e]; [destruct errs|]; reflexivity.
Qed.



(** ** The layers of [ConfigManager()] *)



(** A variable that is unset or empty leaves its field to the earlier
    layers. *)
Lemma apply_env_overrides_keeps (env : list (string * string)) (s : Section)
  (f : string) (c : TestConfig) :
  (forall var co, In (var, s, f, co) env_override_table ->
                  getenv env var = None \/ getenv env var = Some "") ->
  dict_get f (get_section s (fst (apply_env_overrides env c)))
  = dict_get f (get_section s c).
Proof.
  intros Hunset.
  apply (mfor_inv (fun c' => dict_get f (get_section s c') = dict_get f (get_section s c)));
    [|reflexivity].
  intros [[[var' s'] f'] co'] c' Hin' Hc'. rewrite <- Hc'.
  destruct (section_eq_dec s' s) as [Hs|Hs]; [|now apply apply_override_other; left].
  destruct (string_dec f' f) as [Hf|Hf]; [|now apply apply_override_other; right].
  subst s' f'. simpl.
  destruct (Hunset var' co' Hin') as [-> | ->]; reflexivity.
Qed.



Lemma get_set_environment (s : Section) (e : string) (c : TestConfig) :
  get_section s (set_environment e c) = get_section s c.
Proof. destruct s; reflexivity. Qed.





Lemma read_yaml_unavailable (n : string) (p : option Value) :
  String.eqb (lower (suffix n)) ".yaml" || String.eqb (lower (suffix n)) ".yml" = true ->
  read_config_file false n (Text p) = Ret (VDict []).
Proof. intros H. unfold read_config_file. rewrite H. reflexivity. Qed.

(** C4. With PyYAML missing, the first existing candidate of a layer that
    is a YAML file is read as [{}] without exception, so the candidate loop
    stops there ([break]) and the layer merges nothing: a later [.json]
    candidate of the same layer is never read.  For instance, with
    [config.yaml] and [config.json] (setting [api.timeout=7]) in the
    directory, [api.timeout] keeps its default 30; without [config.yaml] it
    is 7. *)
Theorem yaml_unavailable_skips_later_candidates :
  (forall (files : list (string * FileContent)) (cands : list string) (n : string)
          (p : option Value) (c : TestConfig),
     first_existing files cands = Some (n, Text p) ->
     String.eqb (lower (suffix n)) ".yaml" || String.eqb (lower (suffix n)) ".yml" = true ->
     probe false files cands c = (c, Ret tt)) /\
  api_timeout_of (ConfigManager_init
                    (no_yaml_sources [("config.yaml", Text (Some (VDict [])));
                                      ("config.json", timeout_file 7)]))
  = Some (VInt 30) /\
  api_timeout_of (ConfigManager_init (no_yaml_sources [("config.json", timeout_file 7)]))
  = Some (VInt 7).
Proof.
  split; [|split; vm_compute; reflexivity].
  intros files cands n p c Hfirst Hsfx.
  apply (probe_first false files cands n (Text p) (VDict []) c c Hfirst).
  - now apply read_yaml_unavailable.
  - reflexivity.
Qed.

Lemma yaml_unavailable_skips_later_candidates_witness :
  probe false [("config.yaml", Text None); ("config.json", timeout_file 7)]
        base_candidates TestConfig_default
  = (TestConfig_default, Ret tt).
Proof.
  apply (proj1 yaml_unavailable_skips_later_candidates _ _ "config.yaml" None);
    vm_compute; reflexivity.
Defined.

(** ** Nothing configured *)

Lemma apply_env_overrides_unset (env : list (string * string)) (c : TestConfig) :
  (forall var s f co, In (var, s, f, co) env_override_table ->
     getenv env var = None \/ getenv env var = Some "") ->
  apply_env_overrides env c = (c, Ret tt).
Proof.
  unfold apply_env_overrides. generalize env_override_table as l.
  induction l as [|[[[var s] f] co] l IH]; intros Hl; [reflexivity|].
  simpl. unfold bind at 1.
  destruct (Hl var s f co (or_introl eq_refl)) as [-> | ->]; simpl;
    apply IH; intros; eapply Hl; right; eassumption.
Qed.

Lemma collect_errors_set_environment (e : string) (c : TestConfig) :
  collect_errors (set_environment e c) = collect_errors c.
Proof. reflexivity. Qed.

(** C6. Default completeness.  With no file in the config directory, no
    [.env] file and none of the fourteen override variables set to a
    non-empty value, [ConfigManager()] succeeds and its configuration is
    [TestConfig()] with [environment] set to [os.getenv('TEST_ENV',
    'test')]; when [TEST_ENV] is unset as well, it is [TestConfig()]
    itself, whose [environment] is "test". *)
Theorem defaults_when_nothing_configured (src : Sources) :
  config_files src = [] -> env_file src = None ->
  (forall var s f co, In (var, s, f, co) env_override_table ->
     getenv (os_environ src) var = None \/ getenv (os_environ src) var = Some "") ->
  ConfigManager_init src
  = Ret {| cm_environment := active_environment src;
           cm_config := set_environment (active_environment src) TestConfig_default |} /\
  (getenv (os_environ src) "TEST_ENV" = None ->
   set_environment (active_environment src) TestConfig_default = TestConfig_default).
Proof.
  intros Hfiles Henv Hvars.
  assert (Hload : load_env_file src = os_environ src)
    by (unfold load_env_file; now rewrite Henv).
  split.
  - unfold ConfigManager_init, load_config. rewrite Hfiles, Hload.
    set (e := active_environment src).
    set (c0 := set_environment e TestConfig_default).
    unfold bind at 1. rewrite (probe_none _ [] base_candidates c0 eq_refl).
    unfold bind at 1. rewrite (probe_none _ [] (env_candidates e) c0 eq_refl).
    unfold bind at 1. rewrite (apply_env_overrides_unset _ c0 Hvars).
    reflexivity.
  - intros Ht. unfold active_environment. rewrite Hload, Ht. reflexivity.
Qed.

Lemma defaults_when_nothing_configured_witness :
  ConfigManager_init (no_yaml_sources [])
  = Ret {| cm_environment := "test"; cm_config := TestConfig_default |}.
Proof.
  destruct (defaults_when_nothing_configured (no_yaml_sources []) eq_refl eq_refl
              (fun var s f co _ => or_introl eq_refl)) as [H1 H2].
  rewrite H1, H2 by reflexivity. reflexivity.
Defined.

(** C6 does not hold when [TEST_ENV] is set: the environment follows it. *)
Lemma defaults_when_nothing_configured_counterexample :
  ConfigManager_init
    {| yaml_available := true; dotenv_available := true; config_files := [];
       env_file := None; os_environ := [("TEST_ENV", "prod")] |}
  = Ret {| cm_environment := "prod";
           cm_config := set_environment "prod" TestConfig_default |} /\
  environment (set_environment "prod" TestConfig_default) <> "test".
Proof. split; [vm_compute; reflexivity | discriminate]. Qed.

Lemma Value_nested_ind (P : Value -> Prop) :
  P VNone -> (forall b, P (VBool b)) -> (forall z, P (VInt z)) ->
  (forall q, P (VFloat q)) -> (forall s, P (VStr s)) ->
  (forall l, Forall P l -> P (VList l)) ->
  (forall d, Forall (fun kv => P (snd kv)) d -> P (VDict d)) ->
  forall v, P v.
Proof.
  intros Hn Hb Hz Hq Hs Hl Hd. fix F 1. intros v. destruct v.
  - exact Hn.
  - apply Hb.
  - apply Hz.
  - apply Hq.
  - apply Hs.
  - apply Hl.
    exact ((fix G (l : list Value) : Forall P l :=
              match l with
              | [] => Forall_nil _
              | x :: l' => Forall_cons _ (F x) (G l')
              end) l).
  - apply Hd.
    exact ((fix G (d : list (string * Value)) : Forall (fun kv => P (snd kv)) d :=
              match d with
              | [] => Forall_nil _
              | (k, x) :: d' => Forall_cons (A := string * Value) (k, x) (F x) (G d')
              end) d).
Qed.

Lemma yaml_dump_load_dict (d : list (string * Value)) :
  yaml_dump_load (VDict d) = VDict (sort_items (ydl_items d)).
Proof.
  cbn [yaml_dump_load]. f_equal. f_equal.
  induction d as [|[k x] d IH]; [reflexivity|]. cbn. now rewrite IH.
Qed.

Lemma insert_item_sorted (kv : string * Value) (d : list (string * Value)) :
  sorted_items d = true -> sorted_items (insert_item kv d) = true.
Proof.
  induction d as [|y d IH]; intros Hd; [reflexivity|].
  cbn [insert_item]. destruct (String.leb (fst kv) (fst y)) eqn:Hky.
  - cbn [sorted_items]. rewrite Hky. exact Hd.
  - assert (Hyk : String.leb (fst y) (fst kv) = true)
      by (destruct (String.leb_total (fst kv) (fst y)); congruence).
    destruct d as [|z d].
    + cbn. now rewrite Hyk.
    + cbn [sorted_items] in Hd. apply andb_prop in Hd as [Hyz Hd].
      specialize (IH Hd). cbn [insert_item] in IH |- *.
      destruct (String.leb (fst kv) (fst z)).
      * cbn [sorted_items] in IH |- *. now rewrite Hyk, IH.
      * cbn [sorted_items] in IH |- *. now rewrite Hyz, IH.
Qed.

Lemma sort_items_sorted (d : list (string * Value)) : sorted_items (sort_items d) = true.
Proof.
  induction d as [|kv d IH]; [reflexivity|].
  cbn [sort_items fold_right]. now apply insert_item_sorted.
Qed.

Lemma sort_items_of_sorted (d : list (string * Value)) :
  sorted_items d = true -> sort_items d = d.
Proof.
  induction d as [|kv d IH]; intros Hd; [reflexivity|].
  unfold sort_items. cbn [fold_right]. fold (sort_items d).
  destruct d as [|y d]; [reflexivity|].
  cbn [sorted_items] in Hd. apply andb_prop in Hd as [Hky Hd].
  rewrite IH by exact Hd. cbn [insert_item]. now rewrite Hky.
Qed.

Lemma sort_items_idem (d : list (string * Value)) : sort_items (sort_items d) = sort_items d.
Proof. apply sort_items_of_sorted, sort_items_sorted. Qed.

Lemma ydl_items_insert (kv : string * Value) (d : list (string * Value)) :
  ydl_items (insert_item kv d)
  = insert_item (fst kv, yaml_dump_load (snd kv)) (ydl_items d).
Proof.
  induction d as [|y d IH]; [reflexivity|].
  cbn [insert_item]. unfold ydl_items at 2. cbn [map insert_item fst].
  fold (ydl_items d).
  destruct (String.leb (fst kv) (fst y)); [reflexivity|].
  change (ydl_items (y :: insert_item kv d))
    with ((fst y, yaml_dump_load (snd y)) :: ydl_items (insert_item kv d)).
  rewrite IH. reflexivity.
Qed.

Lemma ydl_items_sort (d : list (string * Value)) :
  ydl_items (sort_items d) = sort_items (ydl_items d).
Proof.
  induction d as [|kv d IH]; [reflexivity|].
  unfold sort_items at 1. cbn [fold_right]. fold (sort_items d).
  rewrite ydl_items_insert, IH. reflexivity.
Qed.

Lemma yaml_dump_load_idem (v : Value) :
  yaml_dump_load (yaml_dump_load v) = yaml_dump_load v.
Proof.
  induction v using Value_nested_ind; try reflexivity.
  - cbn [yaml_dump_load]. rewrite map_map. f_equal.
    induction H as [|x l Hx _ IH]; [reflexivity|]. cbn [map]. now rewrite Hx, IH.
  - rewrite !yaml_dump_load_dict, ydl_items_sort, sort_items_idem. f_equal. f_equal.
    induction H as [|[k x] d Hx _ IH]; [reflexivity|].
    change (ydl_items (ydl_items ((k, x) :: d)))
      with ((k, yaml_dump_load (yaml_dump_load x)) :: ydl_items (ydl_items d)).
    change (ydl_items ((k, x) :: d)) with ((k, yaml_dump_load x) :: ydl_items d).
    cbn [snd] in Hx. now rewrite Hx, IH.
Qed.

Lemma reload_dict (b : bool) (d : list (string * Value)) :
  reload b (VDict d) = VDict (reload_items b d).
Proof. destruct b; [apply yaml_dump_load_dict | reflexivity]. Qed.

Lemma insert_item_perm (kv : string * Value) (d : list (string * Value)) :
  Permutation (insert_item kv d) (kv :: d).
Proof.
  induction d as [|y d IH]; [reflexivity|]. cbn [insert_item].
  destruct (String.leb (fst kv) (fst y)); [reflexivity|].
  transitivity (y :: kv :: d); [now apply perm_skip | apply perm_swap].
Qed.

Lemma sort_items_perm (d : list (string * Value)) : Permutation (sort_items d) d.
Proof.
  induction d as [|kv d IH]; [reflexivity|].
  unfold sort_items. cbn [fold_right]. fold (sort_items d).
  rewrite insert_item_perm. now apply perm_skip.
Qed.

Lemma keys_ydl_items (d : list (string * Value)) : keys (ydl_items d) = keys d.
Proof. unfold keys, ydl_items. rewrite map_map. reflexivity. Qed.

Lemma NoDup_keys_reload_items (b : bool) (d : list (string * Value)) :
  NoDup (keys d) -> NoDup (keys (reload_items b d)).
Proof.
  destruct b; [|auto]. intros H. cbn [reload_items].
  apply (Permutation_NoDup (l := keys (ydl_items d))).
  - apply Permutation_map. symmetry. apply sort_items_perm.
  - now rewrite keys_ydl_items.
Qed.

Lemma dict_get_Some_In (f : string) (v : Value) (d : list (string * Value)) :
  NoDup (keys d) -> dict_get f d = Some v <-> In (f, v) d.
Proof.
  induction d as [|[k x] d IH]; intros Hnd; cbn; [split; [discriminate | tauto]|].
  inversion Hnd as [|? ? Hk Hnd']; subst.
  destruct (String.eqb f k) eqn:E.
  - apply String.eqb_eq in E; subst k. split.
    + intros H; injection H as <-. now left.
    + intros [H|H]; [now injection H as <-|].
      exfalso. apply Hk. apply (in_map fst) in H. exact H.
  - apply String.eqb_neq in E. rewrite IH by exact Hnd'. split; [now right|].
    intros [H|H]; [injection H as <- <-; contradiction | exact H].
Qed.

Lemma dict_get_perm (f : string) (d d' : list (string * Value)) :
  NoDup (keys d) -> Permutation d d' -> dict_get f d = dict_get f d'.
Proof.
  intros Hnd Hp.
  assert (Hnd' : NoDup (keys d')) by (eapply Permutation_NoDup; [apply Permutation_map, Hp | exact Hnd]).
  destruct (dict_get f d) as [v|] eqn:E1, (dict_get f d') as [w|] eqn:E2.
  - apply dict_get_Some_In in E1; [|exact Hnd].
    apply (Permutation_in _ Hp) in E1. apply (dict_get_Some_In f v d' Hnd') in E1. congruence.
  - apply dict_get_Some_In in E1; [|exact Hnd].
    apply (Permutation_in _ Hp) in E1. apply (dict_get_Some_In f v d' Hnd') in E1. congruence.
  - apply dict_get_Some_In in E2; [|exact Hnd'].
    apply (Permutation_in _ (Permutation_sym Hp)) in E2.
    apply (dict_get_Some_In f w d Hnd) in E2. congruence.
  - reflexivity.
Qed.

Lemma dict_get_ydl_items (f : string) (d : list (string * Value)) :
  dict_get f (ydl_items d) = option_map yaml_dump_load (dict_get f d).
Proof.
  induction d as [|[k x] d IH]; [reflexivity|].
  change (ydl_items ((k, x) :: d)) with ((k, yaml_dump_load x) :: ydl_items d).
  cbn [dict_get]. destruct (String.eqb f k); [reflexivity | exact IH].
Qed.

Lemma dict_get_reload_items (b : bool) (f : string) (d : list (string * Value)) :
  NoDup (keys d) -> dict_get f (reload_items b d) = option_map (reload b) (dict_get f d).
Proof.
  intros Hnd. destruct b; cbn [reload_items reload].
  - rewrite <- dict_get_ydl_items. symmetry. apply dict_get_perm.
    + now rewrite keys_ydl_items.
    + symmetry. apply sort_items_perm.
  - now destruct (dict_get f d).
Qed.

Lemma same_value_reload (b : bool) (v : Value) : same_value (reload b v) v.
Proof. destruct b; unfold same_value; cbn [reload]; [apply yaml_dump_load_idem | reflexivity]. Qed.

Lemma insert_item_not_nil (kv : string * Value) (d : list (string * Value)) :
  insert_item kv d <> [].
Proof. destruct d; cbn; [discriminate|]. destruct (String.leb _ _); discriminate. Qed.

Lemma truthy_reload (b : bool) (v : Value) : truthy (reload b v) = truthy v.
Proof.
  destruct b; [|reflexivity]. cbn [reload]. destruct v; try reflexivity.
  - cbn [yaml_dump_load truthy]. now destruct l.
  - rewrite yaml_dump_load_dict. cbn [truthy]. destruct d as [|kv d]; [reflexivity|].
    unfold sort_items. cbn [ydl_items map fold_right].
    destruct (insert_item _ _) eqn:E; [exfalso; exact (insert_item_not_nil _ _ E)|].
    reflexivity.
Qed.

Lemma eq_str_reload (b : bool) (v : Value) : eq_str (reload b v) = eq_str v.
Proof. destruct b; [|reflexivity]. destruct v; reflexivity. Qed.

Lemma py_str_reload (b : bool) (v : Value) : py_str (reload b v) = py_str v.
Proof. destruct b; [|reflexivity]. destruct v; reflexivity. Qed.

Lemma py_num_reload (b : bool) (v : Value) : py_num (reload b v) = py_num v.
Proof. destruct b; [|reflexivity]. destruct v; reflexivity. Qed.

(** Validation only looks at saved fields, and at them only through what
    reading a saved file back preserves. *)
Lemma collect_errors_reload (b : bool) (c c2 : TestConfig) :
  (forall s f, In f (saved_fields s) ->
     dict_get f (get_section s c2) = option_map (reload b) (dict_get f (get_section s c))) ->
  collect_errors c2 = collect_errors c.
Proof.
  intros H.
  pose proof (H SDatabase "type" ltac:(simpl; tauto)) as H1.
  pose proof (H SApi "base_url" ltac:(simpl; tauto)) as H2.
  pose proof (H SApi "timeout" ltac:(simpl; tauto)) as H3.
  pose proof (H SBrowser "browser_type" ltac:(simpl; tauto)) as H4.
  pose proof (H SBrowser "timeout" ltac:(simpl; tauto)) as H5.
  pose proof (H SPerformance "default_concurrent_users" ltac:(simpl; tauto)) as H6.
  pose proof (H SPerformance "min_success_rate" ltac:(simpl; tauto)) as H7.
  cbn [get_section] in H1, H2, H3, H4, H5, H6, H7.
  unfold collect_errors, getattr, py_le, py_lt, py_gt, msg_db_type, msg_browser_type.
  rewrite H1, H2, H3, H4, H5, H6, H7.
  repeat match goal with
         | |- context [option_map (reload b) (dict_get ?f ?o)] =>
             destruct (dict_get f o); cbn [option_map ebind]
         end;
    rewrite ?eq_str_reload, ?py_str_reload, ?truthy_reload, ?py_num_reload; reflexivity.
Qed.

Lemma read_fields_pick (o : Obj) (fields : list string) :
  (forall f, In f fields -> In f (keys o)) -> read_fields o fields = Ret (pick o fields).
Proof.
  induction fields as [|f fs IH]; intros H; [reflexivity|].
  cbn [read_fields]. unfold getattr.
  destruct (dict_get f o) eqn:E.
  - cbn [ebind]. rewrite IH by (intros; apply H; now right). cbn [ebind pick map].
    now rewrite E.
  - exfalso. destruct (proj1 (dict_get_in f o) (H f (or_introl eq_refl))) as [v Hv].
    congruence.
Qed.

Lemma saved_fields_in_keys (s : Section) (f : string) :
  In f (saved_fields s) -> In f (keys (get_section s TestConfig_default)).
Proof. destruct s; simpl; tauto. Qed.

Lemma save_data_wf (c : TestConfig) :
  wf_config c -> save_data c = Ret (VDict (saved_tree c)).
Proof.
  intros (H1 & H2 & H3 & H4 & H5 & _). unfold save_data.
  rewrite (read_fields_pick (database c) saved_database_fields)
    by (intros f Hf; rewrite H1; exact (saved_fields_in_keys SDatabase f Hf)).
  rewrite (read_fields_pick (api c) saved_api_fields)
    by (intros f Hf; rewrite H2; exact (saved_fields_in_keys SApi f Hf)).
  rewrite (read_fields_pick (browser c) saved_browser_fields)
    by (intros f Hf; rewrite H3; exact (saved_fields_in_keys SBrowser f Hf)).
  rewrite (read_fields_pick (report c) saved_report_fields)
    by (intros f Hf; rewrite H4; exact (saved_fields_in_keys SReport f Hf)).
  rewrite (read_fields_pick (performance c) saved_performance_fields)
    by (intros f Hf; rewrite H5; exact (saved_fields_in_keys SPerformance f Hf)).
  reflexivity.
Qed.

Lemma keys_pick (o : Obj) (fields : list string) : keys (pick o fields) = fields.
Proof. unfold keys, pick. rewrite map_map. apply map_id. Qed.

Lemma dict_get_pick_in (o : Obj) (fields : list string) (f : string) :
  In f fields -> In f (keys o) -> dict_get f (pick o fields) = dict_get f o.
Proof.
  intros Hf Hk. induction fields as [|g fs IH]; [contradiction|].
  cbn [pick map dict_get]. fold (pick o fs).
  destruct (String.eqb f g) eqn:E.
  - apply String.eqb_eq in E; subst g.
    destruct (proj1 (dict_get_in f o) Hk) as [v Hv]. now rewrite Hv.
  - apply String.eqb_neq in E. apply IH. destruct Hf; [congruence | assumption].
Qed.

Lemma dict_get_pick_out (o : Obj) (fields : list string) (f : string) :
  ~ In f fields -> dict_get f (pick o fields) = None.
Proof.
  intros Hf. apply not_in_keys_get. now rewrite keys_pick.
Qed.

Lemma str_length_app (a b : string) : String.length (a ++ b) = (String.length a + String.length b)%nat.
Proof. induction a as [|x a IH]; simpl; congruence. Qed.

Lemma str_app_cancel_l (p a b : string) : p ++ a = p ++ b -> a = b.
Proof. induction p as [|x p IH]; simpl; [auto|]. intros H; injection H; auto. Qed.

Lemma json_name_not_yaml (p : string) :
  p ++ ".json" <> "config.yaml" /\ p ++ ".json" <> "config.yml".
Proof.
  split; intros H; pose proof (f_equal String.length H) as L;
    rewrite str_length_app in L; simpl in L.
  - do 6 (destruct p as [|? p]; [simpl in L; lia|]).
    destruct p; [|simpl in L; lia]. simpl in H. discriminate H.
  - do 5 (destruct p as [|? p]; [simpl in L; lia|]).
    destruct p; [|simpl in L; lia]. simpl in H. discriminate H.
Qed.

Lemma env_candidates_not_base (e n : string) :
  In n base_candidates -> ~ In n (env_candidates e).
Proof.
  intros Hb He. unfold env_candidates in He.
  destruct Hb as [<-|[<-|[<-|[]]]];
    (destruct He as [H|[H|[H|[]]]]; apply (str_app_cancel_l "config.") in H;
     pose proof (f_equal String.length H) as L; rewrite str_length_app in L; simpl in L;
     [lia || (destruct e; [discriminate H | simpl in L; lia]) ..]).
Qed.

Lemma with_json_suffix_shape (n : string) : exists p, with_json_suffix n = p ++ ".json".
Proof. eexists. reflexivity. Qed.

Lemma read_yaml_file (n : string) (v : Value) :
  String.eqb (lower (suffix n)) ".yaml" || String.eqb (lower (suffix n)) ".yml" = true ->
  truthy v = true -> read_config_file true n (Text (Some v)) = Ret v.
Proof. intros H Ht. unfold read_config_file. rewrite H. cbn. now rewrite Ht. Qed.

Lemma read_json_file (yaml_ok : bool) (n : string) (v : Value) :
  lower (suffix n) = ".json" -> read_config_file yaml_ok n (Text (Some v)) = Ret v.
Proof. intros H. unfold read_config_file. rewrite H. reflexivity. Qed.

(** The file [save_config] wrote, if it is a base candidate, reads back as
    the saved dict. *)
Lemma save_config_read (yaml_ok : bool) (cm : ConfigManager) (file : option string)
  (name : string) (fc : FileContent) :
  wf_config (cm_config cm) ->
  save_config yaml_ok cm file = Ret (name, fc) -> In name base_candidates ->
  exists b, read_config_file yaml_ok name fc
            = Ret (VDict (reload_items b (saved_tree (cm_config cm)))).
Proof.
  intros Hwf Hs Hin. unfold save_config in Hs. rewrite (save_data_wf _ Hwf) in Hs.
  cbv zeta in Hs. cbn [ebind] in Hs.
  remember (match file with Some f => f | None => _ end) as fname eqn:Hf. clear Hf.
  destruct ((String.eqb (lower (suffix fname)) ".yaml"
             || String.eqb (lower (suffix fname)) ".yml") && yaml_ok) eqn:Hy;
    injection Hs as <- <-.
  - exists true. apply andb_prop in Hy as [Hy ->].
    rewrite <- reload_dict. apply read_yaml_file; [exact Hy|].
    rewrite truthy_reload. reflexivity.
  - exists false. cbn [reload_items].
    destruct (with_json_suffix_shape fname) as [p Hp]. rewrite Hp in Hin |- *.
    destruct (json_name_not_yaml p) as [N1 N2].
    destruct Hin as [H|[H|[H|[]]]]; [congruence | congruence |].
    rewrite <- H. apply read_json_file. reflexivity.
Qed.

Lemma dict_set_absent (k : string) (v : Value) (d : list (string * Value)) :
  ~ In k (keys d) -> dict_set k v d = (d ++ [(k, v)])%list.
Proof.
  induction d as [|[k' v'] d IH]; intros H; [reflexivity|].
  cbn [dict_set]. cbn [keys map fst] in H.
  destruct (String.eqb k k') eqn:E.
  - apply String.eqb_eq in E. exfalso. apply H. now left.
  - cbn [app]. f_equal. apply IH. intros H'. apply H. now right.
Qed.

Lemma dict_update_app (acc e : list (string * Value)) :
  NoDup (keys (acc ++ e)) -> dict_update acc e = (acc ++ e)%list.
Proof.
  revert acc. induction e as [|kv e IH]; intros acc Hnd; [now rewrite app_nil_r|].
  unfold dict_update. cbn [fold_left]. fold (dict_update (dict_set (fst kv) (snd kv) acc) e).
  unfold keys in Hnd. rewrite map_app in Hnd. cbn [map] in Hnd.
  rewrite dict_set_absent.
  - destruct kv as [k v]. rewrite IH; [now rewrite <- app_assoc|].
    unfold keys. rewrite <- app_assoc, map_app. exact Hnd.
  - intros Hk. apply NoDup_remove_2 in Hnd. apply Hnd. apply in_or_app. now left.
Qed.

Lemma dict_update_nil (e : list (string * Value)) :
  NoDup (keys e) -> dict_update [] e = e.
Proof. intros H. now apply dict_update_app. Qed.

Lemma first_existing_single (n : string) (fc : FileContent) (cands : list string) :
  ~ In n cands -> first_existing [(n, fc)] cands = None.
Proof.
  induction cands as [|m cands IH]; intros H; [reflexivity|].
  cbn [first_existing assoc_get]. destruct (String.eqb m n) eqn:E.
  - apply String.eqb_eq in E. exfalso. apply H. now left.
  - apply IH. intros H'. apply H. now right.
Qed.

Lemma first_existing_base (n : string) (fc : FileContent) :
  In n base_candidates -> first_existing [(n, fc)] base_candidates = Some (n, fc).
Proof. intros [<-|[<-|[<-|[]]]]; reflexivity. Qed.

Lemma section_of_saved (b : bool) (c : TestConfig) (s : Section) :
  dict_get (section_name s) (reload_items b (saved_tree c))
  = Some (VDict (reload_items b (pick (get_section s c) (saved_fields s)))).
Proof.
  rewrite <- reload_dict.
  destruct b; [|destruct s; reflexivity].
  destruct s; reflexivity.
Qed.

Lemma custom_of_saved (b : bool) (c : TestConfig) :
  dict_get "custom" (reload_items b (saved_tree c)) = Some (VDict (reload_items b (custom c))).
Proof. rewrite <- reload_dict. destruct b; reflexivity. Qed.

Lemma NoDup_saved_fields (s : Section) : NoDup (saved_fields s).
Proof.
  destruct s; cbn [saved_fields];
    repeat constructor; cbn [In]; intros H; repeat destruct H as [H|H]; try discriminate H;
    contradiction.
Qed.

(** A fresh [ConfigManager()] whose directory holds only the file
    [save_config] wrote, as a base candidate, with no override variable
    set: its configuration holds the saved fields as read back from the
    file, the defaults elsewhere, and the saved custom dict. *)
Lemma fresh_load (yaml_ok : bool) (cm : ConfigManager) (file : option string)
  (name : string) (fc : FileContent) (src : Sources) :
  wf_config (cm_config cm) ->
  save_config yaml_ok cm file = Ret (name, fc) -> In name base_candidates ->
  yaml_available src = yaml_ok -> config_files src = [(name, fc)] ->
  (forall var s f co, In (var, s, f, co) env_override_table ->
     getenv (load_env_file src) var = None \/ getenv (load_env_file src) var = Some "") ->
  exists b c2,
    (forall s f, In f (saved_fields s) ->
       dict_get f (get_section s c2)
       = option_map (reload b) (dict_get f (get_section s (cm_config cm)))) /\
    (forall s f, ~ In f (saved_fields s) ->
       dict_get f (get_section s c2) = dict_get f (get_section s TestConfig_default)) /\
    custom c2 = reload_items b (custom (cm_config cm)) /\
    ConfigManager_init src
    = match snd (validate_config c2) with
      | Ret _ => Ret {| cm_environment := active_environment src; cm_config := c2 |}
      | Raise x => Raise x
      end.
Proof.
  intros Hwf Hs Hin Hy Hf Hvars.
  destruct (save_config_read yaml_ok cm file name fc Hwf Hs Hin) as [b Hread].
  set (c := cm_config cm) in *.
  set (d := reload_items b (saved_tree c)) in *.
  set (e := active_environment src).
  set (c0 := set_environment e TestConfig_default).
  assert (Hm : mergeable d = true) by (subst d; destruct b; reflexivity).
  exists b, (merge_pure d c0).
  assert (Hget : forall s f,
             dict_get f (get_section s (merge_pure d c0))
             = if hasattr (get_section s TestConfig_default) f
               then match dict_get f (reload_items b (pick (get_section s c) (saved_fields s))) with
                    | Some v => Some v
                    | None => dict_get f (get_section s TestConfig_default)
                    end
               else dict_get f (get_section s TestConfig_default)).
  { intros s f. rewrite get_merge_pure. subst d. rewrite section_of_saved.
    subst c0. rewrite get_set_environment. apply dict_get_merge_items.
    apply NoDup_keys_reload_items. rewrite keys_pick. apply NoDup_saved_fields. }
  assert (Hnd : forall s, NoDup (keys (pick (get_section s c) (saved_fields s))))
    by (intros s; rewrite keys_pick; apply NoDup_saved_fields).
  split; [|split; [|split]].
  - intros s f Hfs. rewrite Hget, dict_get_reload_items by apply Hnd.
    assert (Hk : In f (keys (get_section s c)))
      by (rewrite (wf_keys s c Hwf); now apply saved_fields_in_keys).
    rewrite dict_get_pick_in by assumption.
    assert (Hh : hasattr (get_section s TestConfig_default) f = true)
      by (apply hasattr_in; now apply saved_fields_in_keys).
    rewrite Hh. destruct (proj1 (dict_get_in f _) Hk) as [v Hv]. now rewrite Hv.
  - intros s f Hfs. rewrite Hget, dict_get_reload_items, dict_get_pick_out by auto.
    cbn [option_map]. now destruct (hasattr _ f).
  - rewrite custom_merge_pure. subst d. rewrite custom_of_saved.
    apply dict_update_nil. apply NoDup_keys_reload_items.
    destruct Hwf as (_ & _ & _ & _ & _ & H). exact H.
  - unfold ConfigManager_init, load_config. cbv zeta. rewrite Hy, Hf. fold e. fold c0.
    unfold bind at 1.
    rewrite (probe_first yaml_ok [(name, fc)] base_candidates name fc (VDict d) c0
               (merge_pure d c0) (first_existing_base name fc Hin) Hread
               (merge_config_mergeable d c0 Hm)).
    unfold bind at 1.
    rewrite (probe_none yaml_ok [(name, fc)] (env_candidates e) (merge_pure d c0)
               (first_existing_single name fc _ (env_candidates_not_base e name Hin))).
    unfold bind at 1. rewrite (apply_env_overrides_unset _ _ Hvars).
    pose proof (validate_config_state (merge_pure d c0)) as Hv.
    destruct (validate_config (merge_pure d c0)) as [c' [u|x]]; cbn [fst snd] in *;
      subst c'; reflexivity.
Qed.

Lemma saved_fields_complete (s : Section) (f : string) :
  In f (keys (get_section s TestConfig_default)) -> ~ In f (saved_fields s) ->
  s = SDatabase /\ f = "password".
Proof.
  destruct s; cbn [get_section TestConfig_default database api browser report performance
                   saved_fields keys map fst In];
    unfold saved_database_fields, saved_api_fields, saved_browser_fields,
      saved_report_fields, saved_performance_fields; cbn [In];
    intros Hk Hn; repeat destruct Hk as [<-|Hk]; try contradiction; try tauto.
Qed.

Lemma validate_config_ok (c : TestConfig) :
  collect_errors c = Ret [] -> validate_config c = (c, Ret tt).
Proof. intros H. unfold validate_config, bind, get, lift. rewrite H. reflexivity. Qed.

(** C7. Round trip.  Take a configuration the manager holds (well formed)
    that passes validation, and save it with [save_config].  A fresh
    [ConfigManager()] whose config directory holds only the written file,
    as a base candidate ([config.yaml], [config.yml] or [config.json]),
    with the same PyYAML availability and no override variable set,
    succeeds; every field [save_config] writes has, in the new
    configuration, a value equal to the original one (dicts compared
    regardless of key order), and so has the custom dict.  The only field
    of the sections that [save_config] does not write is
    [database.password]. *)
Theorem save_load_round_trip (yaml_ok : bool) (cm : ConfigManager)
  (file : option string) (name : string) (fc : FileContent) (src : Sources) :
  wf_config (cm_config cm) -> collect_errors (cm_config cm) = Ret [] ->
  save_config yaml_ok cm file = Ret (name, fc) -> In name base_candidates ->
  yaml_available src = yaml_ok -> config_files src = [(name, fc)] ->
  (forall var s f co, In (var, s, f, co) env_override_table ->
     getenv (load_env_file src) var = None \/ getenv (load_env_file src) var = Some "") ->
  (exists cm', ConfigManager_init src = Ret cm' /\
     (forall s f, In f (saved_fields s) ->
        exists v v', dict_get f (get_section s (cm_config cm)) = Some v /\
                     dict_get f (get_section s (cm_config cm')) = Some v' /\
                     same_value v' v) /\
     same_value (VDict (custom (cm_config cm'))) (VDict (custom (cm_config cm)))) /\
  (forall s f, In f (keys (get_section s TestConfig_default)) -> ~ In f (saved_fields s) ->
     s = SDatabase /\ f = "password").
Proof.
  intros Hwf Hce Hs Hin Hy Hf Hvars. split; [|exact saved_fields_complete].
  destruct (fresh_load yaml_ok cm file name fc src Hwf Hs Hin Hy Hf Hvars)
    as (b & c2 & H1 & _ & H3 & H4).
  assert (Hv : validate_config c2 = (c2, Ret tt)).
  { apply validate_config_ok. rewrite (collect_errors_reload b (cm_config cm) c2 H1).
    exact Hce. }
  exists {| cm_environment := active_environment src; cm_config := c2 |}.
  split; [rewrite H4, Hv; reflexivity|]. cbn [cm_config]. split.
  - intros s f Hfs.
    assert (Hk : In f (keys (get_section s (cm_config cm))))
      by (rewrite (wf_keys s _ Hwf); now apply saved_fields_in_keys).
    destruct (proj1 (dict_get_in f _) Hk) as [v Hv'].
    exists v, (reload b v). split; [exact Hv'|]. split.
    + rewrite (H1 s f Hfs), Hv'. reflexivity.
    + apply same_value_reload.
  - rewrite H3, <- reload_dict. apply same_value_reload.
Qed.

Lemma save_load_round_trip_witness :
  exists cm', ConfigManager_init
                (layered_sources [("config.yaml", saved_file true secret_manager
                                                     (Some "config.yaml"))] []) = Ret cm' /\
     (forall s f, In f (saved_fields s) ->
        exists v v', dict_get f (get_section s secret_config) = Some v /\
                     dict_get f (get_section s (cm_config cm')) = Some v' /\
                     same_value v' v) /\
     same_value (VDict (custom (cm_config cm'))) (VDict (custom secret_config)).
Proof.
  apply (proj1 (save_load_round_trip true secret_manager (Some "config.yaml") "config.yaml"
                  (saved_file true secret_manager (Some "config.yaml"))
                  (layered_sources [("config.yaml", saved_file true secret_manager
                                                      (Some "config.yaml"))] [])
                  ltac:(vm_compute; repeat split; apply NoDup_nil)
                  ltac:(vm_compute; reflexivity)
                  ltac:(vm_compute; reflexivity)
                  ltac:(simpl; tauto)
                  eq_refl eq_refl
                  (fun var s f co _ => or_introl eq_refl))).
Defined.

Lemma save_config_content (yaml_ok : bool) (cm : ConfigManager) (file : option string)
  (name : string) (fc : FileContent) :
  wf_config (cm_config cm) -> save_config yaml_ok cm file = Ret (name, fc) ->
  exists b, fc = Text (Some (reload b (VDict (saved_tree (cm_config cm))))).
Proof.
  intros Hwf Hs. unfold save_config in Hs. rewrite (save_data_wf _ Hwf) in Hs.
  cbv zeta in Hs. cbn [ebind] in Hs.
  destruct (_ && yaml_ok); injection Hs as _ <-; [exists true | exists false]; reflexivity.
Qed.

(** C9. [save_config] never writes the database password: the dict it
    serialises has, under ["database"], no ["password"] key and each of the
    seven other fields with its value in the configuration; the file holds
    that dict (as YAML or JSON).  A fresh [ConfigManager()] that loads the
    file as its only candidate, with no override variable set, has
    [database.password] at its default, the empty string. *)
Theorem save_config_omits_password (yaml_ok : bool) (cm : ConfigManager)
  (file : option string) (name : string) (fc : FileContent) :
  wf_config (cm_config cm) ->
  save_config yaml_ok cm file = Ret (name, fc) ->
  (exists t db b,
     save_data (cm_config cm) = Ret (VDict t) /\
     fc = Text (Some (reload b (VDict t))) /\
     dict_get "database" t = Some (VDict db) /\
     dict_get "password" db = None /\
     (forall f, In f ["type"; "host"; "port"; "database"; "username";
                      "connection_pool_size"; "timeout"] ->
        dict_get f db <> None /\ dict_get f db = dict_get f (database (cm_config cm)))) /\
  (forall (src : Sources) (cm' : ConfigManager),
     In name base_candidates -> yaml_available src = yaml_ok ->
     config_files src = [(name, fc)] ->
     (forall var s f co, In (var, s, f, co) env_override_table ->
        getenv (load_env_file src) var = None \/ getenv (load_env_file src) var = Some "") ->
     ConfigManager_init src = Ret cm' ->
     dict_get "password" (database (cm_config cm')) = Some (VStr "")).
Proof.
  intros Hwf Hs. split.
  - destruct (save_config_content yaml_ok cm file name fc Hwf Hs) as [b Hfc].
    exists (saved_tree (cm_config cm)), (pick (database (cm_config cm)) saved_database_fields), b.
    split; [exact (save_data_wf _ Hwf)|]. split; [exact Hfc|]. split; [reflexivity|].
    split; [apply dict_get_pick_out; cbn; intros H; repeat destruct H as [H|H];
            try discriminate H; contradiction|].
    intros f Hf.
    assert (Hk : In f (keys (database (cm_config cm)))).
    { destruct Hwf as (H1 & _). rewrite H1. cbn. simpl in Hf. tauto. }
    rewrite dict_get_pick_in by assumption. split; [|reflexivity].
    destruct (proj1 (dict_get_in f _) Hk) as [v Hv]. congruence.
  - intros src cm' Hin Hy Hf Hvars Hinit.
    destruct (fresh_load yaml_ok cm file name fc src Hwf Hs Hin Hy Hf Hvars)
      as (b & c2 & _ & H2 & _ & H4).
    rewrite H4 in Hinit.
    destruct (snd (validate_config c2)); [|discriminate].
    injection Hinit as <-. cbn [cm_config].
    apply (H2 SDatabase "password").
    cbn. intros H; repeat destruct H as [H|H]; try discriminate H; contradiction.
Qed.

Lemma save_config_omits_password_witness :
  (exists t db b,
     save_data secret_config = Ret (VDict t) /\
     saved_file true secret_manager (Some "config.yaml") = Text (Some (reload b (VDict t))) /\
     dict_get "database" t = Some (VDict db) /\
     dict_get "password" db = None /\
     (forall f, In f ["type"; "host"; "port"; "database"; "username";
                      "connection_pool_size"; "timeout"] ->
        dict_get f db <> None /\ dict_get f db = dict_get f (database secret_config))) /\
  match ConfigManager_init (layered_sources [("config.yaml", saved_file true secret_manager
                                                                (Some "config.yaml"))] []) with
  | Ret cm' => dict_get "password" (database (cm_config cm')) = Some (VStr "")
  | Raise _ => False
  end.
Proof.
  destruct (save_config_omits_password true secret_manager (Some "config.yaml") "config.yaml"
              (saved_file true secret_manager (Some "config.yaml"))
              ltac:(vm_compute; repeat split; apply NoDup_nil)
              ltac:(vm_compute; reflexivity)) as [P1 P2].
  split; [exact P1|].
  destruct (ConfigManager_init _) as [cm'|x] eqn:E; [|vm_compute in E; discriminate].
  exact (P2 (layered_sources [("config.yaml", saved_file true secret_manager
                                                (Some "config.yaml"))] [])
           cm' ltac:(simpl; tauto) eq_refl eq_refl (fun var s f co _ => or_introl eq_refl) E).
Defined.

(** ** Reading and updating [custom] *)

(** X1: [update_config('custom', k, v)] always succeeds, and afterwards
    [get_custom_config(k, d)] is [v] while every other key reads as
    before, whatever the default. *)
Theorem update_custom_then_get (c : TestConfig) (k k' : string) (v d : Value) :
  snd (update_config "custom" k v c) = Ret tt /\
  get_custom_config (fst (update_config "custom" k v c)) k' d
  = if String.eqb k' k then v else get_custom_config c k' d.
Proof.
  unfold update_config, bind, get, modify. simpl. split; [reflexivity|].
  unfold get_custom_config, set_custom. simpl.
  destruct (String.eqb k' k) eqn:E.
  - apply String.eqb_eq in E. subst k'. now rewrite dict_get_set_same.
  - apply String.eqb_neq in E. rewrite dict_get_set_other by congruence. reflexivity.
Qed.



(** ** The module-level instance *)




(** ** What the loader never changes *)

Section Frame.
Variable P : TestConfig -> Prop.
Hypothesis P_put : forall s o c, P c -> P (put_section s o c).
Hypothesis P_custom : forall d c, P c -> P (set_custom d c).



Lemma frame_apply_env_overrides (env : list (string * string)) :
  preserves P (apply_env_overrides env).
Proof.
  apply preserves_mfor. intros [[[var s] f] co] _. simpl.
  destruct (getenv env var) as [x|]; [|apply preserves_ret].
  destruct (String.eqb x ""); [apply preserves_ret|].
  apply preserves_bind; [apply preserves_lift|]. intros v.
  apply preserves_modify. intros c Hc. now apply P_put.
Qed.

End Frame.




(** ** [_load_env_file] *)

Lemma assoc_get_app_l {A} (k : string) (l l' : list (string * A)) (x : A) :
  assoc_get k l = Some x -> assoc_get k (l ++ l') = Some x.
Proof.
  induction l as [|[k1 a] l IH]; simpl; [discriminate|].
  destruct (String.eqb k k1); [tauto | exact IH].
Qed.

Lemma assoc_get_app_none {A} (k : string) (l l' : list (string * A)) :
  assoc_get k l = None -> assoc_get k (l ++ l') = assoc_get k l'.
Proof.
  induction l as [|[k1 a] l IH]; simpl; [reflexivity|].
  destruct (String.eqb k k1); [discriminate | exact IH].
Qed.

Lemma load_dotenv_keeps (pairs env : list (string * string)) (k x : string) :
  assoc_get k env = Some x -> assoc_get k (load_dotenv pairs env) = Some x.
Proof.
  unfold load_dotenv. revert env.
  induction pairs as [|[k1 v1] pairs IH]; intros env H; simpl; [exact H|].
  apply IH. destruct (assoc_get k1 env); [exact H | now apply assoc_get_app_l].
Qed.

Lemma load_dotenv_fills (pairs env : list (string * string)) (k : string) :
  assoc_get k env = None -> assoc_get k (load_dotenv pairs env) = assoc_get k pairs.
Proof.
  revert env.
  induction pairs as [|[k1 v1] pairs IH]; intros env H; [exact H|].
  unfold load_dotenv. simpl. fold (load_dotenv pairs).
  destruct (String.eqb k k1) eqn:E.
  - apply String.eqb_eq in E. subst k1. rewrite H.
    apply load_dotenv_keeps. rewrite assoc_get_app_none by exact H.
    simpl. now rewrite String.eqb_refl.
  - destruct (assoc_get k1 env); apply IH; [exact H|].
    rewrite assoc_get_app_none by exact H. simpl. now rewrite E.
Qed.

(** X6: [_load_env_file] never overrides the process environment: a
    variable the process sets keeps its value.  A variable the process
    does not set takes the value of the [.env] file (its names distinct)
    when python-dotenv is installed, and stays unset without it. *)
Theorem load_env_file_precedence (src : Sources) (var : string) :
  (forall x, getenv (os_environ src) var = Some x ->
             getenv (load_env_file src) var = Some x) /\
  (forall pairs, env_file src = Some pairs -> NoDup (keys pairs) ->
     getenv (os_environ src) var = None ->
     getenv (load_env_file src) var
     = if dotenv_available src then assoc_get var pairs else None).
Proof.
  unfold load_env_file, getenv. split.
  - intros x H. destruct (env_file src) as [pairs|]; [|exact H].
    destruct (dotenv_available src); [now apply load_dotenv_keeps | exact H].
  - intros pairs Hf _ H. rewrite Hf.
    destruct (dotenv_available src); [now apply load_dotenv_fills | exact H].
Qed.

Lemma load_env_file_precedence_witness :
  getenv (load_env_file dotenv_example) "A" = Some "1" /\
  getenv (load_env_file dotenv_example) "B" = Some "3".
Proof.
  split.
  - apply (proj1 (load_env_file_precedence dotenv_example "A")). reflexivity.
  - rewrite (proj2 (load_env_file_precedence dotenv_example "B") [("A", "2"); ("B", "3")]
               eq_refl
               ltac:(constructor; [simpl; intros [Hab|[]]; discriminate
                                  | constructor; [intros []|constructor]])
               eq_refl).
    reflexivity.
Defined.

(** ** An override variable that is not an integer *)





(** ** [_merge_config] *)






(** ** A candidate that fails half-way, a candidate that is empty *)




(** X11: a candidate file that parses to an empty document ([null], [{}],
    [[]], [""], [0], [false]) counts as loaded: the layer stops at it,
    changes nothing, and the later candidates of the layer are not read. *)
Theorem probe_falsy_candidate (yaml_ok : bool) (files : list (string * FileContent))
  (cands : list string) (n : string) (v : Value) (c : TestConfig) :
  first_existing files cands = Some (n, Text (Some v)) ->
  truthy v = false ->
  String.eqb (lower (suffix n)) ".yaml" || String.eqb (lower (suffix n)) ".yml"
  || String.eqb (lower (suffix n)) ".json" = true ->
  probe yaml_ok files cands c = (c, Ret tt).
Proof.
  intros Hf Hv Hs.
  destruct (String.eqb (lower (suffix n)) ".yaml" || String.eqb (lower (suffix n)) ".yml")
    eqn:Ey.
  - apply (probe_first yaml_ok files cands n (Text (Some v)) (VDict []) c c Hf);
      [|reflexivity].
    unfold read_config_file. rewrite Ey. destruct yaml_ok; simpl; [rewrite Hv|]; reflexivity.
  - apply (probe_first yaml_ok files cands n (Text (Some v)) v c c Hf).
    + simpl in Hs. unfold read_config_file. rewrite Ey, Hs. reflexivity.
    + unfold merge_config. rewrite Hv. reflexivity.
Qed.

Lemma probe_falsy_candidate_witness :
  probe true [("config.yaml", Text (Some VNone)); ("config.json", timeout_file 7)]
    base_candidates TestConfig_default = (TestConfig_default, Ret tt).
Proof.
  exact (probe_falsy_candidate true [("config.yaml", Text (Some VNone)); ("config.json", timeout_file 7)]
           base_candidates "config.yaml" VNone TestConfig_default
           eq_refl eq_refl ltac:(vm_compute; reflexivity)).
Defined.

(** ** [int(str(n))] through an override variable *)

















(** ** Fields no override variable names *)

(** X13: [_apply_env_overrides] changes only the fourteen fields of its
    table: every other field of a section (all of [report] and
    [performance], [api.retry_delay], [database.connection_pool_size], ...),
    the custom dict and [environment] keep their values, whatever the
    environment holds. *)
Theorem apply_env_overrides_only_table (env : list (string * string)) (c : TestConfig)
  (s : Section) (f : string) :
  (forall var co, ~ In (var, s, f, co) env_override_table) ->
  dict_get f (get_section s (fst (apply_env_overrides env c))) = dict_get f (get_section s c) /\
  custom (fst (apply_env_overrides env c)) = custom c /\
  environment (fst (apply_env_overrides env c)) = environment c.
Proof.
  intros Hn. split; [|split].
  - apply apply_env_overrides_keeps. intros var co Hin. exfalso. exact (Hn var co Hin).
  - exact (frame_apply_env_overrides (fun c' => custom c' = custom c)
             (fun s' o c' H => eq_trans (custom_put s' o c') H) env c eq_refl).
  - exact (frame_apply_env_overrides (fun c' => environment c' = environment c)
             (fun s' o c' H => eq_trans (environment_put s' o c') H) env c eq_refl).
Qed.

Lemma apply_env_overrides_only_table_witness :
  dict_get "screenshot_dir" (get_section SReport (fst (apply_env_overrides
    [("DB_HOST", "db"); ("API_TIMEOUT", "5")] TestConfig_default)))
  = dict_get "screenshot_dir" (get_section SReport TestConfig_default) /\
  custom (fst (apply_env_overrides [("DB_HOST", "db"); ("API_TIMEOUT", "5")] TestConfig_default))
  = custom TestConfig_default /\
  environment (fst (apply_env_overrides [("DB_HOST", "db"); ("API_TIMEOUT", "5")]
                      TestConfig_default))
  = environment TestConfig_default.
Proof.
  apply apply_env_overrides_only_table.
  intros var co H. simpl in H. repeat destruct H as [H|H]; try discriminate H. exact H.
Defined.

(** ** The file [save_config] writes *)









(** ** Saving to the default path and loading back *)






(** ** A candidate that cannot be read *)



(** ** [update_config] on a field of a fixed section *)

(** X17: [update_config(section, key, value)] on a field of a fixed section
    succeeds and writes that one field: every other field of every
    section, the custom dict and [environment] are unchanged. *)
Theorem update_config_local (s : Section) (key : string) (v : Value) (c : TestConfig)
  (s' : Section) (f : string) :
  hasattr (get_section s c) key = true ->
  snd (update_config (section_name s) key v c) = Ret tt /\
  dict_get f (get_section s' (fst (update_config (section_name s) key v c)))
  = (if section_eq_dec s' s
     then if String.eqb f key then Some v else dict_get f (get_section s' c)
     else dict_get f (get_section s' c)) /\
  custom (fst (update_config (section_name s) key v c)) = custom c /\
  environment (fst (update_config (section_name s) key v c)) = environment c.
Proof.
  intros H. rewrite (update_config_known_field s key v c H). cbn [fst snd].
  split; [reflexivity|]. split; [|split; [apply custom_put | apply environment_put]].
  destruct (section_eq_dec s' s) as [->|Hne].
  - rewrite get_put_same. unfold setattr.
    destruct (String.eqb f key) eqn:E.
    + apply String.eqb_eq in E. subst f. apply dict_get_set_same.
    + apply String.eqb_neq in E. apply dict_get_set_other. congruence.
  - now rewrite get_put_other.
Qed.

Lemma update_config_local_witness :
  snd (update_config "browser" "headless" (VBool false) TestConfig_default) = Ret tt /\
  dict_get "timeout" (get_section SApi
    (fst (update_config "browser" "headless" (VBool false) TestConfig_default)))
  = dict_get "timeout" (get_section SApi TestConfig_default) /\
  custom (fst (update_config "browser" "headless" (VBool false) TestConfig_default))
  = custom TestConfig_default /\
  environment (fst (update_config "browser" "headless" (VBool false) TestConfig_default))
  = environment TestConfig_default.
Proof.
  exact (update_config_local SBrowser "headless" (VBool false) TestConfig_default SApi "timeout"
           eq_refl).
Defined.

(** ** Which environment is active *)

(** X18: [__init__] loads [.env] before reading [TEST_ENV]: the environment
    is the process's [TEST_ENV] when set; otherwise the [.env] file's
    [TEST_ENV] (its names distinct) when python-dotenv is installed;
    otherwise "test". *)
Theorem active_environment_sources (src : Sources) (pairs : list (string * string)) :
  env_file src = Some pairs -> NoDup (keys pairs) ->
  active_environment src
  = match getenv (os_environ src) "TEST_ENV" with
    | Some e => e
    | None => if dotenv_available src
              then match assoc_get "TEST_ENV" pairs with Some e => e | None => "test" end
              else "test"
    end.
Proof.
  intros Hf Hnd. unfold active_environment.
  destruct (getenv (os_environ src) "TEST_ENV") as [e|] eqn:E.
  - unfold getenv in *. unfold load_env_file. rewrite Hf.
    destruct (dotenv_available src); [now rewrite load_dotenv_keeps with (x := e) | now rewrite E].
  - unfold getenv in *. unfold load_env_file. rewrite Hf.
    destruct (dotenv_available src); [now rewrite load_dotenv_fills | now rewrite E].
Qed.

Lemma active_environment_sources_witness :
  active_environment {| yaml_available := true; dotenv_available := true; config_files := [];
                        env_file := Some [("TEST_ENV", "staging")]; os_environ := [] |}
  = "staging".
Proof.
  rewrite (active_environment_sources
             {| yaml_available := true; dotenv_available := true; config_files := [];
                env_file := Some [("TEST_ENV", "staging")]; os_environ := [] |}
             [("TEST_ENV", "staging")] eq_refl ltac:(constructor; [intros []|constructor])).
  reflexivity.
Defined.
